(** * Adaptive football-alert control loop (BotBelivie)

    Shallow embedding of the decision code of the bot:
    - [calculatePressure]   (src/mastra/tools/calculatePressure.ts)
    - the agent's alert rule (the "Alert Criteria" of footballMonitorAgent)
    - [verifyGoalOutcomes]  (tools/verifyGoalOutcomes, built .mjs)
    - [performDailyAnalysis] (tools/performDailyAnalysis)

    JavaScript numbers are IEEE-754 binary64 values; they are modelled with
    the Gallina specification of floating point of the Standard Library
    ([SpecFloat], no axioms), at precision 53 and [emax] 1024, rounding to
    nearest-even as every JS arithmetic operator does. *)

From Stdlib Require Import ZArith List String Ascii Bool Lia.
From Stdlib Require Import Floats.SpecFloat Permutation DecimalString.
Import ListNotations.

Open Scope Z_scope.

(** ** JavaScript numbers *)
Definition double := spec_float.

Module JSNum.

Definition prec : Z := 53.
Definition emax : Z := 1024.

Definition add (x y : double) : double := SFadd prec emax x y.
Definition sub (x y : double) : double := SFsub prec emax x y.
Definition mul (x y : double) : double := SFmul prec emax x y.
Definition div (x y : double) : double := SFdiv prec emax x y.
Definition abs (x : double) : double := SFabs x.

(** [a < b], [a <= b], [a > b], [a >= b] on numbers (false on NaN). *)
Definition ltb (x y : double) : bool := SFltb x y.
Definition leb (x y : double) : bool := SFleb x y.

Definition is_nan (x : double) : bool :=
  match x with S754_nan => true | _ => false end.

(** The number nearest to the integer [z] (exact below 2^53). *)
Definition of_Z (z : Z) : double := binary_normalize prec emax z 0 false.

(** A decimal literal or decimal text [n / d], read to the nearest double
    (JS number literals and [parseFloat] round correctly). *)
Definition lit (n d : Z) : double := div (of_Z n) (of_Z d).

(** [Math.min] / [Math.max]: NaN if either argument is NaN; on a tie of
    zeros [max] prefers +0 and [min] prefers -0. *)
Definition max (a b : double) : double :=
  if is_nan a || is_nan b then S754_nan
  else if ltb a b then b
  else if ltb b a then a
  else match a with S754_zero true => b | _ => a end.

Definition min (a b : double) : double :=
  if is_nan a || is_nan b then S754_nan
  else if ltb a b then a
  else if ltb b a then b
  else match a with S754_zero false => b | _ => a end.

(** [Math.round]: the integer nearest to [x], ties towards +infinity,
    computed on the exact value [m * 2^e] of a finite [x]. *)
Definition round (x : double) : double :=
  match x with
  | S754_finite s m e =>
      if 0 <=? e then x
      else
        let n := if s then Z.neg m else Z.pos m in
        let d := 2 ^ (- e) in
        of_Z ((2 * n + d) / (2 * d))
  | _ => x
  end.

End JSNum.

(** ** Order on numbers

    [SFcompare] orders non-NaN values lexicographically: class (-inf,
    negative, zero, positive, +inf), then exponent, then mantissa (both
    reversed on negatives).  This gives transitivity of [<=] and [<]. *)
Module JSOrder.
Import JSNum.

Definition key (x : double) : Z * Z * Z :=
  match x with
  | S754_infinity true => (0, 0, 0)
  | S754_finite true m e => (1, - e, Z.neg m)
  | S754_zero _ => (2, 0, 0)
  | S754_finite false m e => (3, e, Z.pos m)
  | S754_infinity false => (4, 0, 0)
  | S754_nan => (0, 0, 0)
  end.

Definition lex (k1 k2 : Z * Z * Z) : comparison :=
  let '(a1, b1, c1) := k1 in
  let '(a2, b2, c2) := k2 in
  match Z.compare a1 a2 with
  | Eq => match Z.compare b1 b2 with Eq => Z.compare c1 c2 | r => r end
  | r => r
  end.

Lemma compare_key (x y : double) :
  is_nan x = false -> is_nan y = false ->
  SFcompare x y = Some (lex (key x) (key y)).
Proof.
  intros Hx Hy.
  destruct x as [sx|sx| |sx mx ex]; destruct y as [sy|sy| |sy my ey];
    try discriminate; try destruct sx; try destruct sy; simpl; try reflexivity.
  - destruct (Z.compare_spec ex ey) as [E|E|E].
    + subst. rewrite Z.compare_refl. reflexivity.
    + replace (- ex ?= - ey) with Gt by (symmetry; apply Z.compare_gt_iff; lia).
      reflexivity.
    + replace (- ex ?= - ey) with Lt by (symmetry; apply Z.compare_lt_iff; lia).
      reflexivity.
Qed.

Lemma lex_not_gt (a1 b1 c1 a2 b2 c2 : Z) :
  lex (a1, b1, c1) (a2, b2, c2) <> Gt <->
  a1 < a2 \/ (a1 = a2 /\ (b1 < b2 \/ (b1 = b2 /\ c1 <= c2))).
Proof.
  simpl.
  destruct (Z.compare_spec a1 a2); [destruct (Z.compare_spec b1 b2);
    [destruct (Z.compare_spec c1 c2)|..]|..];
  split; intros; try lia; congruence.
Qed.

Lemma lex_lt (a1 b1 c1 a2 b2 c2 : Z) :
  lex (a1, b1, c1) (a2, b2, c2) = Lt <->
  a1 < a2 \/ (a1 = a2 /\ (b1 < b2 \/ (b1 = b2 /\ c1 < c2))).
Proof.
  simpl.
  destruct (Z.compare_spec a1 a2); [destruct (Z.compare_spec b1 b2);
    [destruct (Z.compare_spec c1 c2)|..]|..];
  split; intros; try lia; congruence.
Qed.

Lemma leb_spec (x y : double) :
  leb x y = true <->
  is_nan x = false /\ is_nan y = false /\ lex (key x) (key y) <> Gt.
Proof.
  unfold leb, SFleb.
  destruct (is_nan x) eqn:Hx.
  { destruct x; try discriminate. simpl. split; [discriminate|intuition]. }
  destruct (is_nan y) eqn:Hy.
  { destruct y; try discriminate. destruct x; simpl; split;
      try discriminate; intuition. }
  rewrite compare_key by assumption.
  destruct (lex (key x) (key y)); intuition congruence.
Qed.

Lemma ltb_spec (x y : double) :
  ltb x y = true <->
  is_nan x = false /\ is_nan y = false /\ lex (key x) (key y) = Lt.
Proof.
  unfold ltb, SFltb.
  destruct (is_nan x) eqn:Hx.
  { destruct x; try discriminate. simpl. split; [discriminate|intuition]. }
  destruct (is_nan y) eqn:Hy.
  { destruct y; try discriminate. destruct x; simpl; split;
      try discriminate; intuition. }
  rewrite compare_key by assumption.
  destruct (lex (key x) (key y)); intuition congruence.
Qed.

Ltac key_split :=
  repeat match goal with
  | |- context [key ?x] => let k := fresh "k" in
        destruct (key x) as [[? ?] ?] eqn:k; clear k
  | H : context [key ?x] |- _ => let k := fresh "k" in
        destruct (key x) as [[? ?] ?] eqn:k; clear k
  end.

Lemma leb_trans (x y z : double) :
  leb x y = true -> leb y z = true -> leb x z = true.
Proof.
  rewrite !leb_spec. intros (Hx & Hy & H1) (_ & Hz & H2).
  repeat split; try assumption. key_split.
  rewrite lex_not_gt in *. lia.
Qed.

Lemma ltb_leb (x y : double) : ltb x y = true -> leb x y = true.
Proof.
  rewrite ltb_spec, leb_spec. intros (Hx & Hy & H). repeat split; congruence.
Qed.

Lemma ltb_leb_trans (x y z : double) :
  ltb x y = true -> leb y z = true -> ltb x z = true.
Proof.
  rewrite ltb_spec, !leb_spec, ltb_spec. intros (Hx & Hy & H1) (_ & Hz & H2).
  repeat split; try assumption. key_split.
  rewrite lex_lt in *; rewrite lex_not_gt in *. lia.
Qed.

Lemma lex_not_lt_swap (k1 k2 : Z * Z * Z) : lex k1 k2 <> Lt -> lex k2 k1 <> Gt.
Proof.
  destruct k1 as [[a1 b1] c1], k2 as [[a2 b2] c2].
  rewrite lex_not_gt. intro H. rewrite lex_lt in H. lia.
Qed.

(** Without NaN, [not (a < b)] is [b <= a]. *)
Lemma not_ltb_leb (x y : double) :
  is_nan x = false -> is_nan y = false -> ltb x y = false -> leb y x = true.
Proof.
  intros Hx Hy H. apply leb_spec. repeat split; try assumption.
  apply lex_not_lt_swap. intro E.
  unfold ltb, SFltb in H. rewrite compare_key, E in H by assumption.
  discriminate.
Qed.

End JSOrder.

(** ** Rounding never produces NaN from a non-negative mantissa *)
Module JSNaN.
Import JSNum.

Lemma shr_1_nonneg (mrs : shr_record) :
  0 <= shr_m mrs -> 0 <= shr_m (shr_1 mrs).
Proof.
  destruct mrs as [m r s]; simpl; intro H.
  destruct m as [|p|p]; [simpl; lia| |lia].
  destruct p; simpl; lia.
Qed.

Lemma iter_shr_1_nonneg (p : positive) (mrs : shr_record) :
  0 <= shr_m mrs -> 0 <= shr_m (iter_pos shr_1 p mrs).
Proof.
  revert mrs; induction p; intros mrs H; simpl; auto using shr_1_nonneg.
Qed.

Lemma shr_fexp_nonneg (m e : Z) (l : location) :
  0 <= m -> 0 <= shr_m (fst (shr_fexp prec emax m e l)).
Proof.
  intro H. unfold shr_fexp, shr.
  destruct (fexp prec emax (Zdigits2 m + e) - e);
    [| apply iter_shr_1_nonneg |];
    destruct l as [|[]]; simpl; assumption.
Qed.

Lemma round_nearest_even_nonneg (m : Z) (l : location) :
  0 <= m -> 0 <= round_nearest_even m l.
Proof.
  intro H. destruct l as [|[]]; simpl; try lia.
  destruct (Z.even m); lia.
Qed.

Lemma binary_round_aux_not_nan (s : bool) (m e : Z) (l : location) :
  0 <= m -> binary_round_aux prec emax s m e l <> S754_nan.
Proof.
  intro H. unfold binary_round_aux.
  pose proof (shr_fexp_nonneg m e l H) as H1.
  destruct (shr_fexp prec emax m e l) as [mrs' e'] eqn:E1. simpl in H1.
  pose proof (shr_fexp_nonneg (round_nearest_even (shr_m mrs')
      (loc_of_shr_record mrs')) e' loc_Exact
      (round_nearest_even_nonneg _ _ H1)) as H2.
  destruct (shr_fexp prec emax (round_nearest_even (shr_m mrs')
      (loc_of_shr_record mrs')) e' loc_Exact) as [mrs'' e''].
  simpl in H2. destruct (shr_m mrs'') as [|p|p]; try discriminate; try lia.
  destruct (e'' <=? emax - prec); discriminate.
Qed.

Lemma of_Z_not_nan (z : Z) : is_nan (of_Z z) = false.
Proof.
  unfold of_Z, binary_normalize, binary_round.
  destruct z as [|p|p]; [reflexivity| |];
    destruct (shl_align _ _ _) as [mz ez];
    destruct (binary_round_aux prec emax _ (Z.pos mz) ez loc_Exact) eqn:E;
    try reflexivity; exfalso; refine (binary_round_aux_not_nan _ _ _ _ _ E); lia.
Qed.

Lemma div_finite_not_nan (x : double) (s : bool) (m : positive) (e : Z) :
  is_nan x = false -> is_nan (div x (S754_finite s m e)) = false.
Proof.
  intro Hx. destruct x as [sx|sx| |sx mx ex]; try reflexivity; try discriminate.
  unfold div, SFdiv, SFdiv_core_binary.
  set (m' := match _ with Z.pos _ => _ | _ => _ end).
  assert (Hm : 0 <= m').
  { subst m'. destruct (_ - _ - _); try lia. apply Z.shiftl_nonneg. lia. }
  assert (Hq : 0 <= fst (Z.div_eucl m' (Z.pos m))).
  { change (fst (Z.div_eucl m' (Z.pos m))) with (m' / Z.pos m).
    apply Z.div_pos; lia. }
  destruct (Z.div_eucl m' (Z.pos m)) as [q r]. simpl in Hq.
  destruct (binary_round_aux _ _ _ q _ _) eqn:E; try reflexivity.
  exfalso; exact (binary_round_aux_not_nan _ _ _ _ Hq E).
Qed.

Lemma mul_finite_not_nan (x : double) (s : bool) (m : positive) (e : Z) :
  is_nan x = false -> is_nan (mul x (S754_finite s m e)) = false.
Proof.
  intro Hx. destruct x as [sx|sx| |sx mx ex]; try reflexivity; try discriminate.
  unfold mul, SFmul.
  destruct (binary_round_aux _ _ _ _ _ _) eqn:E; try reflexivity.
  exfalso; refine (binary_round_aux_not_nan _ _ _ _ _ E); lia.
Qed.

End JSNaN.

(** ** Strings: [toLowerCase] and [parseInt(s, 10)] *)
Module JSString.
Import JSNum.

Definition lower_ascii (c : ascii) : ascii :=
  let n := nat_of_ascii c in
  if (65 <=? n)%nat && (n <=? 90)%nat then ascii_of_nat (n + 32) else c.

(** [String.prototype.toLowerCase] (ASCII letters). *)
Fixpoint toLowerCase (s : string) : string :=
  match s with
  | EmptyString => EmptyString
  | String c s' => String (lower_ascii c) (toLowerCase s')
  end.

Definition is_space (c : ascii) : bool :=
  let n := nat_of_ascii c in
  (n =? 32)%nat || ((9 <=? n)%nat && (n <=? 13)%nat).

Definition digit (c : ascii) : option Z :=
  let n := nat_of_ascii c in
  if (48 <=? n)%nat && (n <=? 57)%nat then Some (Z.of_nat n - 48) else None.

(** Longest prefix of decimal digits, as (number of digits, value). *)
Fixpoint digits (s : string) (cnt acc : Z) : Z * Z :=
  match s with
  | String c s' =>
      match digit c with
      | Some d => digits s' (cnt + 1) (acc * 10 + d)
      | None => (cnt, acc)
      end
  | EmptyString => (cnt, acc)
  end.

Fixpoint trim_start (s : string) : string :=
  match s with
  | String c s' => if is_space c then trim_start s' else s
  | EmptyString => s
  end.

(** [parseInt(s, 10)]: leading white space, an optional sign, then the
    longest run of digits; [None] stands for NaN (no digit). *)
Definition parseInt10 (s : string) : option Z :=
  let s := trim_start s in
  let '(sign, rest) :=
    match s with
    | String "-"%char r => (-1, r)
    | String "+"%char r => (1, r)
    | _ => (1, s)
    end in
  let '(cnt, v) := digits rest 0 0 in
  if cnt =? 0 then None else Some (sign * v).

(** [parseInt(s, 10) || 0]: NaN and -0 become +0. *)
Definition parseInt_or_0 (s : string) : double :=
  match parseInt10 s with
  | None => of_Z 0
  | Some z => of_Z z
  end.

End JSString.

(** ** PressureScorer: [calculatePressure] *)
Module Pressure.
Import JSNum JSString.

(** The [value] of a statistic of API-Football: [null], absent, a number,
    a string, or anything else (an object or boolean, skipped by the loop). *)
Inductive stat_value :=
  | VNull
  | VUndefined
  | VNumber (n : double)
  | VString (s : string)
  | VOther.

(** One [{ type, value }] entry; [stat_type = None] for a missing type. *)
Record stat_item := { stat_type : option string; stat_value_of : stat_value }.

(** A team's object; [statistics = None] when the field is absent or falsy. *)
Record team := { statistics : option (list stat_item) }.

(** An element of [context.stats]: [null], [undefined], a primitive
    (whose [.statistics] is [undefined]) or an object. *)
Inductive entry :=
  | ENull
  | EUndefined
  | EPrim
  | EObj (t : team).

(** The error monad of a [try] body: a value, or a thrown message. *)
Inductive throws (A : Type) :=
  | Ok (a : A)
  | Throw (msg : string).
Arguments Ok {A} a.
Arguments Throw {A} msg.

Definition bind {A B} (m : throws A) (k : A -> throws B) : throws B :=
  match m with Ok a => k a | Throw e => Throw e end.

Notation "x <- m ;; k" := (bind m (fun x => k))
  (at level 61, m at next level, right associativity).

(** [getStatValue]: the first entry whose lower-cased type equals the
    lower-cased key decides, unless its value is neither null, undefined,
    a number nor a string, in which case the loop goes on. *)
Fixpoint find_stat (items : list stat_item) (key : string) : double :=
  match items with
  | [] => of_Z 0
  | item :: rest =>
      let matches :=
        match stat_type item with
        | Some ty => String.eqb (toLowerCase ty) (toLowerCase key)
        | None => false
        end in
      if matches then
        match stat_value_of item with
        | VNull | VUndefined => of_Z 0
        | VNumber n => n
        | VString s => parseInt_or_0 s
        | VOther => find_stat rest key
        end
      else find_stat rest key
  end.

Definition getStatValue (e : entry) (key : string) : throws double :=
  match e with
  | ENull => Throw "Cannot read properties of null (reading 'statistics')"
  | EUndefined => Throw "Cannot read properties of undefined (reading 'statistics')"
  | EPrim => Ok (find_stat [] key)
  | EObj t =>
      Ok (find_stat (match statistics t with Some l => l | None => [] end) key)
  end.

Record pressure_result := {
  pressHome : double; pressAway : double;
  pressTotal : double; pressDiff : double;
  attacksHome : double; attacksAway : double;
  shotsHome : double; shotsAway : double;
  cornersHome : double; cornersAway : double;
  success : bool; error : option string }.

Definition zero := of_Z 0.

Definition failure (msg : string) : pressure_result :=
  {| pressHome := zero; pressAway := zero; pressTotal := zero;
     pressDiff := zero; attacksHome := zero; attacksAway := zero;
     shotsHome := zero; shotsAway := zero; cornersHome := zero;
     cornersAway := zero; success := false; error := Some msg |}.

(** [attacks * 0.5 + shots * 1.5 + corners * 0.8] *)
Definition pressure (attacks shots corners : double) : double :=
  add (add (mul attacks (lit 5 10)) (mul shots (lit 15 10)))
      (mul corners (lit 8 10)).

(** The body of the [try] block of [execute]. *)
Definition execute_body (stats : list entry) : throws pressure_result :=
  if (List.length stats <? 2)%nat then
    Ok (failure "Insufficient statistics data")
  else
    let homeStats := nth 0 stats EUndefined in
    let awayStats := nth 1 stats EUndefined in
    attacksHome <- getStatValue homeStats "Total attacks" ;;
    attacksAway <- getStatValue awayStats "Total attacks" ;;
    shotsHome <- getStatValue homeStats "Shots on Goal" ;;
    shotsAway <- getStatValue awayStats "Shots on Goal" ;;
    cornersHome <- getStatValue homeStats "Corner Kicks" ;;
    cornersAway <- getStatValue awayStats "Corner Kicks" ;;
    let pressHome := pressure attacksHome shotsHome cornersHome in
    let pressAway := pressure attacksAway shotsAway cornersAway in
    let pressTotal := add pressHome pressAway in
    let pressDiff := abs (sub pressHome pressAway) in
    Ok {| pressHome := pressHome; pressAway := pressAway;
          pressTotal := pressTotal; pressDiff := pressDiff;
          attacksHome := attacksHome; attacksAway := attacksAway;
          shotsHome := shotsHome; shotsAway := shotsAway;
          cornersHome := cornersHome; cornersAway := cornersAway;
          success := true; error := None |}.

(** [execute]: the [catch] turns a thrown error into a failure result. *)
Definition calculatePressure (stats : list entry) : pressure_result :=
  match execute_body stats with
  | Ok r => r
  | Throw msg => failure msg
  end.

(** A statistics entry with a numeric value. *)
Definition num_item (ty : string) (n : Z) : stat_item :=
  {| stat_type := Some ty; stat_value_of := VNumber (of_Z n) |}.

Definition team_of (attacks shots corners : Z) : entry :=
  EObj {| statistics := Some [num_item "Total attacks" attacks;
                              num_item "Shots on Goal" shots;
                              num_item "Corner Kicks" corners] |}.

End Pressure.

(** ** AlertPolicy: the agent's "Alert Criteria"

    The monitoring agent decides alerts from its instructions:
    "Total pressure >= current threshold_total OR Pressure difference >=
    current threshold_diff AND shots on goal >= 2 OR Corners in last period
    >= escanteios_10min threshold".  The shots and corners counts are those
    the caller supplies with the metrics. *)
Module AlertPolicy.
Import JSNum Pressure.

Record thresholds := {
  thresholdTotal : double; thresholdDiff : double; escanteios10min : double }.

Definition should_alert (m : pressure_result) (shotsOnGoal corners : double)
    (t : thresholds) : bool :=
  leb (thresholdTotal t) (pressTotal m)
  || (leb (thresholdDiff t) (pressDiff m) && leb (of_Z 2) shotsOnGoal)
  || leb (escanteios10min t) corners.

End AlertPolicy.

(** ** AlertLedger rows (table [football_alerts]) *)
Module Ledger.

(** [press_total] and [press_diff] are DECIMAL(10,2) columns, kept in
    hundredths; times are in seconds. *)
Record alert_row := {
  alert_id : Z; fixture_id : Z; minute : Z;
  press_total : Z; press_diff : Z; corners : Z; shots_on_goal : Z;
  goals_at_alert : Z; goal_happened : option bool; created_at : Z }.

Definition with_goal (r : alert_row) (b : bool) : alert_row :=
  {| alert_id := alert_id r; fixture_id := fixture_id r; minute := minute r;
     press_total := press_total r; press_diff := press_diff r;
     corners := corners r; shots_on_goal := shots_on_goal r;
     goals_at_alert := goals_at_alert r; goal_happened := Some b;
     created_at := created_at r |}.

(** [UPDATE football_alerts SET goal_happened = $1 WHERE id = $2] *)
Definition set_goal (i : Z) (b : bool) (rows : list alert_row) : list alert_row :=
  map (fun r => if alert_id r =? i then with_goal r b else r) rows.

(** The row with id [i] ([SELECT ... WHERE id = i]). *)
Definition find_row (i : Z) (rows : list alert_row) : option alert_row :=
  find (fun r => alert_id r =? i) rows.

(** [ORDER BY created_at ASC]: a stable insertion sort. *)
Fixpoint insert_by_time (r : alert_row) (l : list alert_row) : list alert_row :=
  match l with
  | [] => [r]
  | x :: l' => if created_at x <=? created_at r then x :: insert_by_time r l'
               else r :: l
  end.

Fixpoint sort_by_time (l : list alert_row) : list alert_row :=
  match l with
  | [] => []
  | x :: l' => insert_by_time x (sort_by_time l')
  end.

End Ledger.

(** ** OutcomeVerifier: [verifyGoalOutcomes] *)
Module Verifier.
Import Ledger.

(** [fixture.goals]: [home] and [away] may be null. *)
Record goals_obj := { home : option Z; away : option Z }.
Record fixture := { goals : option goals_obj }.

(** The answer of [axios.get] for the k-th fetch of a run: an error
    (network, timeout, non-2xx), or [response.data.response]
    ([None] when absent). *)
Inductive fetch_result :=
  | FetchError (msg : string)
  | FetchOk (response : option (list fixture)).

Definition observation_window : Z := 600.
Definition batch_size : nat := 50.

(** [WHERE goal_happened IS NULL AND created_at < NOW() - INTERVAL
    '10 minutes' ORDER BY created_at ASC LIMIT 50] *)
Definition select_unverified (now : Z) (rows : list alert_row) : list alert_row :=
  firstn batch_size
    (sort_by_time
       (filter (fun r => match goal_happened r with
                         | None => created_at r <? now - observation_window
                         | Some _ => false end) rows)).

Definition or0 (v : option Z) : Z :=
  match v with Some z => z | None => 0 end.

(** [goals?.home || 0] and [goals?.away || 0] *)
Definition homeGoals (fx : fixture) : Z :=
  match goals fx with Some g => or0 (home g) | None => 0 end.
Definition awayGoals (fx : fixture) : Z :=
  match goals fx with Some g => or0 (away g) | None => 0 end.

(** [totalGoalsNow > goalsAtAlert] *)
Definition goal_outcome (fx : fixture) (alert : alert_row) : bool :=
  let totalGoalsNow := homeGoals fx + awayGoals fx in
  let goalsAtAlert := goals_at_alert alert in
  totalGoalsNow >? goalsAtAlert.

(** The body of the [for] loop from the k-th fetch on: a record whose
    fetch throws is only logged; a record is updated when the response
    has a first fixture.  Returns the table and the [updated] count. *)
Fixpoint verify_loop (feed : nat -> Z -> fetch_result) (k : nat)
    (alerts : list alert_row) (rows : list alert_row) : list alert_row * Z :=
  match alerts with
  | [] => (rows, 0)
  | alert :: rest =>
      let rows1 :=
        match feed k (fixture_id alert) with
        | FetchError _ => rows
        | FetchOk (Some (fx :: _)) =>
            set_goal (alert_id alert) (goal_outcome fx alert) rows
        | FetchOk _ => rows
        end in
      let incr :=
        match feed k (fixture_id alert) with
        | FetchOk (Some (_ :: _)) => 1 | _ => 0 end in
      let '(rows2, n) := verify_loop feed (S k) rest rows1 in
      (rows2, incr + n)
  end.

Record verify_result := { checked : Z; updated : Z; v_success : bool }.

Definition verifyGoalOutcomes (feed : nat -> Z -> fetch_result) (now : Z)
    (rows : list alert_row) : verify_result * list alert_row :=
  let alerts := select_unverified now rows in
  let '(rows', updated) := verify_loop feed 0 alerts rows in
  ({| checked := Z.of_nat (List.length alerts); updated := updated;
      v_success := true |}, rows').

(** What the run records for the record fetched at call [k]. *)
Definition record_outcome (r : fetch_result) (alert : alert_row) : option bool :=
  match r with
  | FetchOk (Some (fx :: _)) => Some (goal_outcome fx alert)
  | _ => None
  end.

End Verifier.

(** ** Facts about the verifier's batch *)
Module VerifierFacts.
Import Ledger Verifier.

Lemma find_set_goal_same (i : Z) (b : bool) (rows : list alert_row) :
  find_row i (set_goal i b rows) = option_map (fun r => with_goal r b) (find_row i rows).
Proof.
  unfold find_row, set_goal. induction rows as [|r rows IH]; simpl; [reflexivity|].
  destruct (alert_id r =? i) eqn:E; simpl; rewrite E; auto.
Qed.

Lemma find_set_goal_other (i j : Z) (b : bool) (rows : list alert_row) :
  j <> i -> find_row i (set_goal j b rows) = find_row i rows.
Proof.
  intro Hne. unfold find_row, set_goal.
  induction rows as [|r rows IH]; simpl; [reflexivity|].
  destruct (alert_id r =? j) eqn:Ej; simpl.
  - apply Z.eqb_eq in Ej. replace (alert_id r =? i) with false; auto.
    symmetry; apply Z.eqb_neq; lia.
  - destruct (alert_id r =? i); auto.
Qed.

(** One step of the loop, on the table. *)
Definition step_rows (r : fetch_result) (alert : alert_row)
    (rows : list alert_row) : list alert_row :=
  match record_outcome r alert with
  | Some b => set_goal (alert_id alert) b rows
  | None => rows
  end.

Lemma verify_loop_cons (feed : nat -> Z -> fetch_result) k alert rest rows :
  fst (verify_loop feed k (alert :: rest) rows) =
  fst (verify_loop feed (S k) rest (step_rows (feed k (fixture_id alert)) alert rows)).
Proof.
  simpl. unfold step_rows, record_outcome.
  destruct (feed k (fixture_id alert)) as [msg|[[|fx l]|]];
  destruct (verify_loop _ _ _ _); reflexivity.
Qed.

Lemma verify_loop_absent (feed : nat -> Z -> fetch_result) (alerts : list alert_row) :
  forall k rows i, (forall a, In a alerts -> alert_id a <> i) ->
  find_row i (fst (verify_loop feed k alerts rows)) = find_row i rows.
Proof.
  induction alerts as [|a rest IH]; intros k rows i Hi; [reflexivity|].
  rewrite verify_loop_cons, IH by (intros; apply Hi; right; assumption).
  unfold step_rows. destruct (record_outcome _ _); [|reflexivity].
  apply find_set_goal_other, Hi; left; reflexivity.
Qed.

(** The record at position [j] of the batch, fetched by call [k + j], is
    resolved from that call alone: the other fetches, failed or not, do
    not touch it. *)
Lemma verify_loop_at (feed : nat -> Z -> fetch_result) (alerts : list alert_row) :
  forall k rows j c,
  NoDup (map alert_id alerts) -> nth_error alerts j = Some c ->
  find_row (alert_id c) (fst (verify_loop feed k alerts rows)) =
  match record_outcome (feed (k + j)%nat (fixture_id c)) c with
  | Some b => option_map (fun r => with_goal r b) (find_row (alert_id c) rows)
  | None => find_row (alert_id c) rows
  end.
Proof.
  induction alerts as [|a rest IH]; intros k rows j c Hnd Hj;
    [destruct j; discriminate|].
  rewrite verify_loop_cons. simpl in Hnd. inversion Hnd as [|? ? Hnotin Hnd']; subst.
  destruct j as [|j]; simpl in Hj.
  - injection Hj as <-. rewrite verify_loop_absent.
    + rewrite Nat.add_0_r. unfold step_rows.
      destruct (record_outcome _ _); [apply find_set_goal_same|reflexivity].
    + intros a' Ha' E. apply Hnotin. rewrite <- E. apply in_map; assumption.
  - rewrite (IH (S k) _ j c Hnd' Hj). replace (S k + j)%nat with (k + S j)%nat by lia.
    assert (Hne : alert_id a <> alert_id c).
    { intro E. apply Hnotin. rewrite E. apply in_map. apply nth_error_In with j; assumption. }
    unfold step_rows at 1 2.
    destruct (record_outcome (feed k (fixture_id a)) a);
      [rewrite find_set_goal_other by assumption|]; reflexivity.
Qed.

Lemma insert_by_time_perm (r : alert_row) (l : list alert_row) :
  Permutation (insert_by_time r l) (r :: l).
Proof.
  induction l as [|x l IH]; simpl; [reflexivity|].
  destruct (created_at x <=? created_at r); [|reflexivity].
  rewrite IH. apply perm_swap.
Qed.

Lemma sort_by_time_perm (l : list alert_row) : Permutation (sort_by_time l) l.
Proof.
  induction l as [|x l IH]; simpl; [reflexivity|].
  rewrite insert_by_time_perm, IH. reflexivity.
Qed.

Lemma in_firstn {A} (n : nat) (l : list A) (x : A) : In x (firstn n l) -> In x l.
Proof.
  intro H. rewrite <- (firstn_skipn n l). apply in_or_app. left; assumption.
Qed.

Lemma nodup_map_firstn {A B} (f : A -> B) (n : nat) (l : list A) :
  NoDup (map f l) -> NoDup (map f (firstn n l)).
Proof.
  revert n; induction l as [|x l IH]; intros n H;
    destruct n as [|n]; simpl; [constructor|constructor|constructor|].
  inversion H; subst. constructor; [|auto].
  intro Hin. apply in_map_iff in Hin as (y & Hy & Hin).
  apply H2. rewrite <- Hy. apply in_map, in_firstn with n; assumption.
Qed.

Lemma filtered_keys_nodup {A B} (keep : A -> bool) (key : A -> B) (l : list A) :
  NoDup (map key l) -> NoDup (map key (filter keep l)).
Proof.
  induction l as [|x l IH]; simpl; intro Hl; [constructor|].
  apply NoDup_cons_iff in Hl as [Hx Hl].
  destruct (keep x); simpl; [|exact (IH Hl)].
  apply NoDup_cons; [|exact (IH Hl)].
  rewrite in_map_iff. intros (y & Hy & Hin). rewrite filter_In in Hin.
  apply Hx. rewrite <- Hy. apply in_map. apply Hin.
Qed.

(** The batch has distinct ids when the table has ([id SERIAL PRIMARY KEY]). *)
Lemma select_nodup (now : Z) (rows : list alert_row) :
  NoDup (map alert_id rows) -> NoDup (map alert_id (select_unverified now rows)).
Proof.
  intro H. unfold select_unverified. apply nodup_map_firstn.
  apply Permutation_NoDup with (map alert_id (filter
    (fun r => match goal_happened r with
              | None => created_at r <? now - observation_window
              | Some _ => false end) rows)).
  - apply Permutation_map. symmetry. apply sort_by_time_perm.
  - apply filtered_keys_nodup; assumption.
Qed.

Lemma select_in (now : Z) (rows : list alert_row) (c : alert_row) :
  In c (select_unverified now rows) ->
  In c rows /\ goal_happened c = None /\ created_at c < now - observation_window.
Proof.
  unfold select_unverified. intro H. apply in_firstn in H.
  apply (Permutation_in _ (sort_by_time_perm _)) in H.
  apply filter_In in H as [Hin Hc]. split; [assumption|].
  destruct (goal_happened c); [discriminate|]. split; [reflexivity|].
  apply Z.ltb_lt; assumption.
Qed.

Lemma find_row_in (rows : list alert_row) (c : alert_row) :
  NoDup (map alert_id rows) -> In c rows -> find_row (alert_id c) rows = Some c.
Proof.
  unfold find_row. induction rows as [|r rows IH]; intros Hnd Hin; [destruct Hin|].
  inversion Hnd as [|? ? Hnotin Hnd']; subst. simpl.
  destruct Hin as [<-|Hin]; [rewrite Z.eqb_refl; reflexivity|].
  replace (alert_id r =? alert_id c) with false; [auto|].
  symmetry. apply Z.eqb_neq. intro E. apply Hnotin. rewrite E. apply in_map; assumption.
Qed.

(** The row of the batch record fetched at call [j] after a whole run. *)
Lemma verify_row (feed : nat -> Z -> fetch_result) (now : Z)
    (rows : list alert_row) (j : nat) (c : alert_row) :
  NoDup (map alert_id rows) ->
  nth_error (select_unverified now rows) j = Some c ->
  find_row (alert_id c) (snd (verifyGoalOutcomes feed now rows)) =
  match record_outcome (feed j (fixture_id c)) c with
  | Some b => Some (with_goal c b)
  | None => Some c
  end.
Proof.
  intros Hnd Hj. unfold verifyGoalOutcomes.
  pose proof (verify_loop_at feed (select_unverified now rows) 0 rows j c
    (select_nodup now rows Hnd) Hj) as H.
  destruct (verify_loop feed 0 (select_unverified now rows) rows) as [rows' n].
  simpl in *. rewrite H.
  rewrite (find_row_in rows c Hnd) by (apply (select_in now); apply nth_error_In with j; assumption).
  destruct (record_outcome _ _); reflexivity.
Qed.

End VerifierFacts.

(** ** ThresholdAdjuster: [performDailyAnalysis] *)
Module Daily.
Import JSNum Ledger AlertPolicy.

(** The singleton row of [football_thresholds]: [threshold_total] and
    [threshold_diff] are DECIMAL(10,2) (kept in hundredths),
    [escanteios_10min] is INTEGER. *)
Record threshold_row := {
  threshold_total : Z; threshold_diff : Z; escanteios_10min : Z }.

Record db := { alerts : list alert_row; thresholds_row : option threshold_row }.

(** [WHERE created_at > NOW() - INTERVAL '24 hours' AND goal_happened IS NOT NULL] *)
Definition resolved_in_window (now : Z) (r : alert_row) : bool :=
  (now - 86400 <? created_at r) &&
  match goal_happened r with Some _ => true | None => false end.

Record stats := { total_alerts : Z; goals_confirmed : Z; unique_matches : Z }.

(** [COUNT] of the rows, [COUNT(CASE WHEN goal_happened = true THEN 1 END)],
    [COUNT(DISTINCT fixture_id)] *)
Definition stats_of (now : Z) (rows : list alert_row) : stats :=
  let sel := filter (resolved_in_window now) rows in
  {| total_alerts := Z.of_nat (List.length sel);
     goals_confirmed := Z.of_nat (List.length
        (filter (fun r => match goal_happened r with Some true => true | _ => false end) sel));
     unique_matches := Z.of_nat (List.length (nodup Z.eq_dec (map fixture_id sel))) |}.

(** [alertsSent > 0 ? (goalsConfirmed / alertsSent) * 100 : 0]; the counts
    are integers, compared exactly. *)
Definition accuracy_of (alertsSent goalsConfirmed : Z) : double :=
  if alertsSent >? 0
  then mul (div (of_Z goalsConfirmed) (of_Z alertsSent)) (of_Z 100)
  else of_Z 0.

(** The [if / else if / else] choosing [adjustmentFactor]. *)
Definition adjustment_factor (accuracy : double) (alertsSent : Z) : double :=
  if ltb (of_Z 85) accuracy then SFopp (lit 5 100)
  else if ltb accuracy (of_Z 50) && (alertsSent >=? 3) then lit 5 100
  else of_Z 0.

(** [Math.max(lo, Math.min(hi, x))] *)
Definition clamp (lo hi : Z) (x : double) : double := max (of_Z lo) (min (of_Z hi) x).

(** The values read from the row: [parseFloat] of the DECIMAL text and
    [parseInt] of the INTEGER. *)
Definition current_of (row : threshold_row) : thresholds :=
  {| thresholdTotal := lit (threshold_total row) 100;
     thresholdDiff := lit (threshold_diff row) 100;
     escanteios10min := of_Z (escanteios_10min row) |}.

(** [newThresholdTotal], [newThresholdDiff], [newEscanteios] after the clamps. *)
Definition new_thresholds (cur : thresholds) (factor : double) : thresholds :=
  {| thresholdTotal := clamp 50 120 (mul (thresholdTotal cur) (add (of_Z 1) factor));
     thresholdDiff := clamp 10 30 (mul (thresholdDiff cur) (add (of_Z 1) factor));
     escanteios10min := clamp 2 6 (escanteios10min cur) |}.

(** [Math.round(x * 100) / 100] *)
Definition round2 (x : double) : double := div (round (mul x (of_Z 100))) (of_Z 100).

Definition recommended_of (nw : thresholds) : thresholds :=
  {| thresholdTotal := round2 (thresholdTotal nw);
     thresholdDiff := round2 (thresholdDiff nw);
     escanteios10min := escanteios10min nw |}.

(** *** A number sent as a query parameter

    node-postgres sends a JS number as its text [String(x)]
    ([Number::toString]), and PostgreSQL reads that text into the column. *)

(** The double nearest to [a / b] ([a], [b] positive), ties to even: how a
    decimal text is read back as a number. *)
Definition nearest (a b : Z) : double :=
  let '(mz, ez, lz) := SFdiv_core_binary prec emax a 0 b 0 in
  binary_round_aux prec emax false mz ez lz.

(** The number read from the decimal [s * 10^q]. *)
Definition decimal_value (s q : Z) : double :=
  if 0 <=? q then nearest (s * 10 ^ q) 1 else nearest s (10 ^ (- q)).

(** The number of decimal digits of a positive integer. *)
Definition digits10 (z : Z) : Z :=
  match z with Zpos p => Z.of_nat (Decimal.nb_digits (Pos.to_uint p)) | _ => 0 end.

(** [a / b >= 10^t] *)
Definition ge_pow10 (a b t : Z) : bool :=
  b * 10 ^ Z.max t 0 <=? a * 10 ^ Z.max (- t) 0.

(** The digits of [Number::toString] of the positive number [x = a / b],
    with [10^(n-1) <= x < 10^n]: for [k = 1, 2, ...] the [k]-digit
    decimals [s * 10^(n-k)] next to [x] (below and above it) are tried, and
    the first [k] at which one of them reads back as [x] gives the result,
    the nearer of the two when both do (the even [s] on a tie).  Any
    [k]-digit decimal that reads back as [x] lies between [x] and one of
    these two, so [k] is the least possible; 17 digits always suffice.
    The result [(s, q)] is the value [s * 10^q] of the text. *)
Fixpoint shortest_from (fuel : nat) (x : double) (a b n k : Z) : Z * Z :=
  let q := n - k in
  let num := a * 10 ^ Z.max (- q) 0 in
  let den := b * 10 ^ Z.max q 0 in
  let lo := num / den in
  let r := num mod den in
  let reads (s : Z) := SFeqb (decimal_value s q) x in
  let ok_lo := reads lo in
  let ok_hi := reads (lo + 1) in
  if ok_lo && ok_hi then
    match Z.compare (2 * r) den with
    | Lt => (lo, q)
    | Gt => (lo + 1, q)
    | Eq => if Z.even lo then (lo, q) else (lo + 1, q)
    end
  else if ok_lo then (lo, q)
  else if ok_hi then (lo + 1, q)
  else match fuel with
       | O => (lo, q)
       | S fuel' => shortest_from fuel' x a b n (k + 1)
       end.

(** [String(x)] of a finite number, as its sign and decimal value [s * 10^q]
    ([s >= 0]); [None] for ["Infinity"], ["-Infinity"] and ["NaN"].  The
    text of [-0] is ["0"]. *)
Definition to_decimal (x : double) : option (bool * Z * Z) :=
  match x with
  | S754_zero _ => Some (false, 0, 0)
  | S754_finite sg m e =>
      let a := Zpos m * 2 ^ Z.max e 0 in
      let b := 2 ^ Z.max (- e) 0 in
      let t := digits10 a - digits10 b in
      let n := if ge_pow10 a b t then t + 1 else t in
      let '(s, q) := shortest_from 16 (S754_finite false m e) a b n 1 in
      Some (sg, s, q)
  | _ => None
  end.

(** A number bound to a NUMERIC column of [p] integer digits and scale [k]:
    PostgreSQL reads the decimal text exactly and rounds it to [k] places,
    half away from zero; the value is kept times [10^k].  [None] is the
    error of the query ("numeric field overflow") beyond [10^p] and for an
    infinite number.  (The text ["NaN"] would be stored as NaN; no caller
    sends it: the tools' inputs are JSON numbers and the thresholds are
    clamped finite values.) *)
Definition numeric_of (p k : Z) (x : double) : option Z :=
  match to_decimal x with
  | Some (sg, s, q) =>
      let t := q + k in
      let r := if 0 <=? t then s * 10 ^ t
               else let d := 10 ^ (- t) in (2 * s + d) / (2 * d) in
      let v := if sg then - r else r in
      if Z.abs v <? 10 ^ (p + k) then Some v else None
  | None => None
  end.

(** A number bound to an INTEGER column: the text must be an integer
    (["3.5"] is invalid input syntax for type integer) in the range of a
    32-bit integer; [None] is the error of the query. *)
Definition integer_of (x : double) : option Z :=
  match to_decimal x with
  | Some (sg, s, q) =>
      if q <? 0 then None
      else
        let v := if sg then - (s * 10 ^ q) else s * 10 ^ q in
        if (- 2 ^ 31 <=? v) && (v <? 2 ^ 31) then Some v else None
  | None => None
  end.

Record analysis_result := {
  matchesMonitored : Z; alertsSent : Z; goalsConfirmed : Z;
  accuracy : double;
  currentThresholds : thresholds; recommendedThresholds : thresholds;
  a_success : bool; a_error : option string }.

Definition defaults : thresholds :=
  {| thresholdTotal := of_Z 70; thresholdDiff := of_Z 15; escanteios10min := of_Z 3 |}.

Definition failed (msg : string) : analysis_result :=
  {| matchesMonitored := 0; alertsSent := 0; goalsConfirmed := 0;
     accuracy := of_Z 0; currentThresholds := defaults;
     recommendedThresholds := defaults; a_success := false; a_error := Some msg |}.

(** The [UPDATE football_thresholds ... WHERE id = 1] applied to the row:
    [None] when PostgreSQL rejects a value. *)
Definition apply_update (nw : thresholds) : option threshold_row :=
  match numeric_of 8 2 (thresholdTotal nw), numeric_of 8 2 (thresholdDiff nw),
        integer_of (escanteios10min nw) with
  | Some t, Some d, Some e =>
      Some {| threshold_total := t; threshold_diff := d; escanteios_10min := e |}
  | _, _, _ => None
  end.

(** [execute]: the result, the UPDATE issued with its parameters (if
    any), and the database afterwards. *)
Definition performDailyAnalysis (now : Z) (d : db)
    : analysis_result * option thresholds * db :=
  let st := stats_of now (alerts d) in
  let alertsSent := total_alerts st in
  let goalsConfirmed := goals_confirmed st in
  let matchesMonitored := unique_matches st in
  let accuracy := accuracy_of alertsSent goalsConfirmed in
  match thresholds_row d with
  | None =>
      (failed "Cannot read properties of undefined (reading 'threshold_total')",
       None, d)
  | Some row =>
      let cur := current_of row in
      let factor := adjustment_factor accuracy alertsSent in
      let nw := new_thresholds cur factor in
      let result :=
        {| matchesMonitored := matchesMonitored; alertsSent := alertsSent;
           goalsConfirmed := goalsConfirmed; accuracy := round2 accuracy;
           currentThresholds := cur; recommendedThresholds := recommended_of nw;
           a_success := true; a_error := None |} in
      if negb (SFeqb factor (of_Z 0)) then
        match apply_update nw with
        | Some row' => (result, Some nw, {| alerts := alerts d; thresholds_row := Some row' |})
        | None => (failed "numeric field overflow", Some nw, d)
        end
      else (result, None, d)
  end.

End Daily.

(** ** Facts about the adjustment arithmetic *)
Module DailyFacts.
Import JSNum JSOrder JSNaN AlertPolicy Daily.

Lemma leb_refl (x : double) : is_nan x = false -> leb x x = true.
Proof.
  intro Hx. apply leb_spec. repeat split; try assumption.
  destruct (key x) as [[a b] c]. apply lex_not_gt. lia.
Qed.

Lemma min_spec (a x : double) :
  is_nan a = false -> is_nan x = false ->
  is_nan (min a x) = false /\ leb (min a x) a = true.
Proof.
  intros Ha Hx. unfold min. rewrite Ha, Hx. simpl.
  destruct (ltb a x) eqn:E1; [split; [assumption|apply leb_refl; assumption]|].
  destruct (ltb x a) eqn:E2; [split; [assumption|apply ltb_leb; assumption]|].
  destruct a as [[]|[]| |[] ? ?]; try discriminate;
    (split; [assumption|]);
    solve [apply leb_refl; assumption | apply not_ltb_leb; assumption].
Qed.

Lemma clamp_between (lo hi x : double) :
  is_nan lo = false -> is_nan hi = false -> ltb lo hi = true -> is_nan x = false ->
  leb lo (max lo (min hi x)) = true /\ leb (max lo (min hi x)) hi = true.
Proof.
  intros Hlo Hhi Hlh Hx.
  destruct (min_spec hi x Hhi Hx) as [Hy Hyh].
  set (y := min hi x) in *. unfold max. rewrite Hlo, Hy. simpl.
  destruct (ltb lo y) eqn:E1; [split; [apply ltb_leb|]; assumption|].
  destruct (ltb y lo) eqn:E2; [split; [apply leb_refl|apply ltb_leb]; assumption|].
  assert (Hyl : leb lo y = true) by (apply not_ltb_leb; assumption).
  destruct lo as [[]|[]| |[] ? ?]; try discriminate; split;
    solve [assumption | apply leb_refl; assumption | apply ltb_leb; assumption].
Qed.

Lemma clamp_bounds (lo hi : Z) (x : double) :
  ltb (of_Z lo) (of_Z hi) = true -> is_nan x = false ->
  leb (of_Z lo) (clamp lo hi x) = true /\ leb (clamp lo hi x) (of_Z hi) = true.
Proof.
  intros H Hx. apply clamp_between; auto using of_Z_not_nan.
Qed.

Lemma lit_not_nan (c : Z) : is_nan (lit c 100) = false.
Proof.
  unfold lit. change (of_Z 100) with (S754_finite false 7036874417766400 (-46)).
  apply div_finite_not_nan, of_Z_not_nan.
Qed.

Lemma one_plus_factor (acc : double) (a : Z) :
  exists s m e, add (of_Z 1) (adjustment_factor acc a) = S754_finite s m e.
Proof.
  unfold adjustment_factor.
  destruct (ltb (of_Z 85) acc); [|destruct (ltb acc (of_Z 50) && (a >=? 3))];
    vm_compute; eauto.
Qed.

Lemma scaled_not_nan (c : Z) (acc : double) (a : Z) :
  is_nan (mul (lit c 100) (add (of_Z 1) (adjustment_factor acc a))) = false.
Proof.
  destruct (one_plus_factor acc a) as (s & m & e & ->).
  apply mul_finite_not_nan, lit_not_nan.
Qed.

End DailyFacts.

(** ** Process environment and error messages *)
Module Env.

(** [!process.env.X] is false: the variable is set to a non-empty string. *)
Definition configured (v : option string) : bool :=
  match v with Some s => negb (String.eqb s "") | None => false end.

(** [error.message || "Unknown error occurred"] *)
Definition message_or_unknown (msg : string) : string :=
  if String.eqb msg "" then "Unknown error occurred"%string else msg.

(** A number in a template literal: [Number.prototype.toString] of an
    integer. *)
Definition number_text (z : Z) : string := NilZero.string_of_int (Z.to_int z).

End Env.

(** ** [getFixtureStats] (tools/getFixtureStats) *)
Module FixtureStats.
Import Pressure Env.

(** The outcome of [axios.get]: a thrown error (network, timeout, a status
    outside 2xx), or a response with its [status] and its body
    [response.data]: [None] for a JSON [null] body, on which reading
    [.response] throws; otherwise [Some] of [response.data.response]
    ([None] when absent or falsy). *)
Inductive http_result (A : Type) :=
  | HttpThrow (msg : string)
  | HttpResponse (status : Z) (data : option (option A)).
Arguments HttpThrow {A} msg.
Arguments HttpResponse {A} status data.

Record fixture_stats_result := {
  fs_stats : list entry; fs_success : bool; fs_error : option string }.

(** [execute], given [process.env.API_FOOTBALL_KEY] and the answer to the
    statistics request of the fixture. *)
Definition getFixtureStats (apiKey : option string)
    (answer : http_result (list entry)) : fixture_stats_result :=
  if negb (configured apiKey) then
    {| fs_stats := []; fs_success := false;
       fs_error := Some "API_FOOTBALL_KEY not configured"%string |}
  else
    match answer with
    | HttpThrow msg =>
        {| fs_stats := []; fs_success := false; fs_error := Some (message_or_unknown msg) |}
    | HttpResponse status resp =>
        if negb (status =? 200) then
          {| fs_stats := []; fs_success := false;
             fs_error := Some ("API returned status " ++ number_text status)%string |}
        else
          match resp with
          | None =>
              {| fs_stats := []; fs_success := false;
                 fs_error := Some "Cannot read properties of null (reading 'response')"%string |}
          | Some r =>
              {| fs_stats := match r with Some l => l | None => [] end;
                 fs_success := true; fs_error := None |}
          end
    end.

End FixtureStats.

(** ** [getCurrentThresholds] (src/mastra/tools/getCurrentThresholds.ts) *)
Module CurrentThresholds.
Import JSNum AlertPolicy Daily Env.

Record current_result := {
  c_thresholds : thresholds; lastUpdated : string;
  c_success : bool; c_error : option string }.

(** [execute]: [conn] is [Some msg] when connecting or the SELECT throws;
    [last_updated] is [row.last_updated?.toISOString()] ([None] for NULL)
    and [now_iso] is [new Date().toISOString()].  The DECIMAL columns come
    back as text read by [parseFloat], the INTEGER by [parseInt], as in
    [performDailyAnalysis] ([current_of]). *)
Definition getCurrentThresholds (database_url conn : option string) (d : db)
    (last_updated : option string) (now_iso : string) : current_result :=
  if negb (configured database_url) then
    {| c_thresholds := defaults; lastUpdated := now_iso; c_success := false;
       c_error := Some "DATABASE_URL not configured"%string |}
  else
    match conn with
    | Some msg =>
        {| c_thresholds := defaults; lastUpdated := now_iso; c_success := false;
           c_error := Some (message_or_unknown msg) |}
    | None =>
        match thresholds_row d with
        | None =>
            {| c_thresholds := defaults; lastUpdated := now_iso; c_success := true;
               c_error := None |}
        | Some row =>
            {| c_thresholds := current_of row;
               lastUpdated := match last_updated with Some s => s | None => now_iso end;
               c_success := true; c_error := None |}
        end
    end.

End CurrentThresholds.

(** ** [initDatabase] *)
Module InitDb.
Import Ledger Daily.

(** The two tables: [None] when a table does not exist; for
    [football_alerts], whether it has the column [goals_at_alert]. *)
Record schema := {
  alerts_table : option (list alert_row);
  has_goals_at_alert : bool;
  thresholds_table : option (option threshold_row) }.

Definition set_goals_at_alert (r : alert_row) (g : Z) : alert_row :=
  {| alert_id := alert_id r; fixture_id := fixture_id r; minute := minute r;
     press_total := press_total r; press_diff := press_diff r;
     corners := corners r; shots_on_goal := shots_on_goal r;
     goals_at_alert := g; goal_happened := goal_happened r;
     created_at := created_at r |}.

Definition set_goal_happened (r : alert_row) (v : option bool) : alert_row :=
  {| alert_id := alert_id r; fixture_id := fixture_id r; minute := minute r;
     press_total := press_total r; press_diff := press_diff r;
     corners := corners r; shots_on_goal := shots_on_goal r;
     goals_at_alert := goals_at_alert r; goal_happened := v;
     created_at := created_at r |}.

(** [CREATE TABLE IF NOT EXISTS football_alerts (...)] *)
Definition create_alerts_table (s : schema) : schema :=
  match alerts_table s with
  | Some _ => s
  | None => {| alerts_table := Some []; has_goals_at_alert := true;
               thresholds_table := thresholds_table s |}
  end.

(** [UPDATE football_alerts SET goal_happened = NULL
     WHERE goal_happened IS NULL AND created_at < NOW() - INTERVAL '10 minutes'] *)
Definition migration_update (now : Z) (rows : list alert_row) : list alert_row :=
  map (fun r => if match goal_happened r with
                   | None => created_at r <? now - 600
                   | Some _ => false end
                then set_goal_happened r None else r) rows.

(** The [DO] block: when [goals_at_alert] is missing, [ADD COLUMN
    goals_at_alert INTEGER NOT NULL DEFAULT 0] (every row gets 0), then
    the UPDATE above. *)
Definition migrate (now : Z) (s : schema) : schema :=
  if has_goals_at_alert s then s
  else {| alerts_table :=
            option_map (fun rows => migration_update now
                          (map (fun r => set_goals_at_alert r 0) rows)) (alerts_table s);
          has_goals_at_alert := true;
          thresholds_table := thresholds_table s |}.

(** [CREATE TABLE IF NOT EXISTS football_thresholds (...)] *)
Definition create_thresholds_table (s : schema) : schema :=
  match thresholds_table s with
  | Some _ => s
  | None => {| alerts_table := alerts_table s; has_goals_at_alert := has_goals_at_alert s;
               thresholds_table := Some None |}
  end.

(** [VALUES (1, 70, 15, 3)] *)
Definition default_row : threshold_row :=
  {| threshold_total := 7000; threshold_diff := 1500; escanteios_10min := 3 |}.

(** [INSERT INTO football_thresholds ... ON CONFLICT (id) DO NOTHING] *)
Definition insert_default (s : schema) : schema :=
  match thresholds_table s with
  | Some None => {| alerts_table := alerts_table s; has_goals_at_alert := has_goals_at_alert s;
                    thresholds_table := Some (Some default_row) |}
  | _ => s
  end.

(** [BEGIN], the statements in order (the two CREATE INDEX change no
    data), [COMMIT].  When a statement throws ([failure = true]) the
    [catch] issues [ROLLBACK] and rethrows: the schema is left as it was.
    The boolean is whether the transaction committed. *)
Definition initDatabase (failure : bool) (now : Z) (s : schema) : bool * schema :=
  if failure then (false, s)
  else (true, insert_default (create_thresholds_table (migrate now (create_alerts_table s)))).

(** The database the tools see, once both tables exist. *)
Definition db_view (s : schema) : option db :=
  match alerts_table s, thresholds_table s with
  | Some rows, Some t => Some {| alerts := rows; thresholds_row := t |}
  | _, _ => None
  end.

End InitDb.

(** ** [storeAlert] (tools/storeAlert) *)
Module Store.
Import Ledger Pressure Env.

(** [context]: the tool's input, JS numbers. *)
Record store_context := {
  c_fixtureId : double; c_minute : double; c_pressTotal : double;
  c_pressDiff : double; c_corners : double; c_shotsOnGoal : double;
  c_goalsAtAlert : double }.

Record store_result := { s_success : bool; alertId : option Z; s_error : option string }.

Section StoreAlert.

(** PostgreSQL's reading of a bound JS number (sent as [String(x)]) into
    an INTEGER column and into a DECIMAL(10,2) column (in hundredths):
    the stored value, or the error the INSERT fails with. *)
Variable to_integer : double -> throws Z.
Variable to_decimal_10_2 : double -> throws Z.

(** The row [INSERT INTO football_alerts (fixture_id, minute, press_total,
    press_diff, corners, shots_on_goal, goals_at_alert) VALUES ($1, ..., $7)]
    adds: [id] from the [SERIAL] sequence ([nextval]), [goal_happened]
    NULL and [created_at] [NOW()] by default. *)
Definition insert_row (nextval now : Z) (c : store_context) : throws alert_row :=
  fid <- to_integer (c_fixtureId c) ;;
  mi <- to_integer (c_minute c) ;;
  pt <- to_decimal_10_2 (c_pressTotal c) ;;
  pd <- to_decimal_10_2 (c_pressDiff c) ;;
  co <- to_integer (c_corners c) ;;
  sh <- to_integer (c_shotsOnGoal c) ;;
  ga <- to_integer (c_goalsAtAlert c) ;;
  Ok {| alert_id := nextval; fixture_id := fid; minute := mi;
        press_total := pt; press_diff := pd; corners := co; shots_on_goal := sh;
        goals_at_alert := ga; goal_happened := None; created_at := now |}.

(** [execute]: [conn] is [Some msg] when connecting throws; the result
    and the table afterwards ([RETURNING id] gives [nextval]). *)
Definition storeAlert (database_url conn : option string) (nextval now : Z)
    (c : store_context) (rows : list alert_row) : store_result * list alert_row :=
  if negb (configured database_url) then
    ({| s_success := false; alertId := None; s_error := Some "DATABASE_URL not configured"%string |}, rows)
  else
    match conn with
    | Some msg =>
        ({| s_success := false; alertId := None; s_error := Some (message_or_unknown msg) |}, rows)
    | None =>
        match insert_row nextval now c with
        | Ok r => ({| s_success := true; alertId := Some nextval; s_error := None |}, rows ++ [r])
        | Throw msg =>
            ({| s_success := false; alertId := None; s_error := Some (message_or_unknown msg) |}, rows)
        end
    end.

End StoreAlert.

End Store.

(** ** The workflow's midnight check ([checkMidnightAndRunAnalysis]) *)
Module Workflow.

(** [Date.prototype.getUTCHours] and [getUTCMinutes] of the time value [t]
    (milliseconds since the epoch): [floor(t / msPerHour) modulo 24] and
    [floor(t / msPerMinute) modulo 60]. *)
Definition msPerMinute : Z := 60000.
Definition msPerHour : Z := 3600000.
Definition getUTCHours (t : Z) : Z := (t / msPerHour) mod 24.
Definition getUTCMinutes (t : Z) : Z := (t / msPerMinute) mod 60.

(** [const isMidnight = hours === 0 && minutes === 0]: the daily analysis
    is requested exactly when it holds. *)
Definition isMidnight (t : Z) : bool := (getUTCHours t =? 0) && (getUTCMinutes t =? 0).

End Workflow.

(** ** Symmetry of [+] and of [|a - b|] *)
Module FloatSym.
Import JSNum.

Lemma add_comm (x y : double) : add x y = add y x.
Proof.
  unfold add, SFadd.
  destruct x as [sx|sx| |sx mx ex]; destruct y as [sy|sy| |sy my ey];
    try destruct sx; try destruct sy; try reflexivity;
    rewrite Z.min_comm, Z.add_comm; reflexivity.
Qed.

Lemma binary_round_aux_opp (m e : Z) (l : location) :
  binary_round_aux prec emax true m e l = SFopp (binary_round_aux prec emax false m e l).
Proof.
  unfold binary_round_aux.
  destruct (shr_fexp prec emax m e l) as [mrs' e'].
  destruct (shr_fexp prec emax _ e' loc_Exact) as [mrs'' e''].
  destruct (shr_m mrs'') as [|p|p]; [reflexivity| |reflexivity].
  destruct (e'' <=? emax - prec); reflexivity.
Qed.

Lemma abs_opp (x : double) : SFabs (SFopp x) = SFabs x.
Proof. destruct x; reflexivity. Qed.

Lemma abs_normalize_opp (z e : Z) :
  SFabs (binary_normalize prec emax (- z) e false) =
  SFabs (binary_normalize prec emax z e false).
Proof.
  destruct z as [|p|p]; simpl; [reflexivity| |];
    unfold binary_round; destruct (shl_align _ _ _) as [mz ez];
    rewrite binary_round_aux_opp, abs_opp; reflexivity.
Qed.

Lemma abs_sub_swap (x y : double) : abs (sub x y) = abs (sub y x).
Proof.
  unfold abs, sub, SFsub.
  destruct x as [sx|sx| |sx mx ex]; destruct y as [sy|sy| |sy my ey];
    try destruct sx; try destruct sy; try reflexivity;
    rewrite (Z.min_comm ey ex);
    match goal with
    | |- _ = SFabs (binary_normalize _ _ (?b - ?a) _ _) =>
        replace (b - a) with (- (a - b)) by lia; rewrite abs_normalize_opp; reflexivity
    end.
Qed.

End FloatSym.

(** ** What a verifier run can change *)
Module RunFacts.
Import Ledger Verifier VerifierFacts.

(** A row without its outcome. *)
Definition strip (r : alert_row) : alert_row :=
  {| alert_id := alert_id r; fixture_id := fixture_id r; minute := minute r;
     press_total := press_total r; press_diff := press_diff r;
     corners := corners r; shots_on_goal := shots_on_goal r;
     goals_at_alert := goals_at_alert r; goal_happened := None;
     created_at := created_at r |}.

(** [r'] is [r], except maybe for the outcome when the id of [r] is in [ids]. *)
Definition touched (ids : list Z) (r r' : alert_row) : Prop :=
  strip r' = strip r /\ (goal_happened r' = goal_happened r \/ In (alert_id r) ids).

Lemma strip_id (r r' : alert_row) : strip r' = strip r -> alert_id r' = alert_id r.
Proof. intro H. exact (f_equal alert_id H). Qed.

Lemma Forall2_refl_touched (ids : list Z) (rows : list alert_row) :
  Forall2 (touched ids) rows rows.
Proof.
  induction rows; constructor; [split; [reflexivity|left; reflexivity]|assumption].
Qed.

Lemma set_goal_touched (i : Z) (b : bool) (rows : list alert_row) :
  Forall2 (touched [i]) rows (set_goal i b rows).
Proof.
  induction rows as [|r rows IH]; simpl; constructor; [|assumption].
  destruct (alert_id r =? i) eqn:E.
  - split; [reflexivity|right]. apply Z.eqb_eq in E. left; symmetry; assumption.
  - split; [reflexivity|left; reflexivity].
Qed.

Lemma Forall2_compose {A} (R Q T : A -> A -> Prop) (l1 l2 l3 : list A) :
  (forall x y z, R x y -> Q y z -> T x z) ->
  Forall2 R l1 l2 -> Forall2 Q l2 l3 -> Forall2 T l1 l3.
Proof.
  intros HT H12. revert l3. induction H12; intros l3 H23; inversion H23; subst;
    constructor; eauto.
Qed.

Lemma Forall2_weaken {A} (R Q : A -> A -> Prop) (l l' : list A) :
  (forall x y, In x l -> R x y -> Q x y) -> Forall2 R l l' -> Forall2 Q l l'.
Proof.
  intros HQ H. induction H; constructor.
  - apply HQ; [left; reflexivity|assumption].
  - apply IHForall2. intros; apply HQ; [right|]; assumption.
Qed.

Lemma touched_compose (i : Z) (ids : list Z) (x y z : alert_row) :
  touched [i] x y -> touched ids y z -> touched (i :: ids) x z.
Proof.
  intros [Hs1 H1] [Hs2 H2]. split; [congruence|].
  rewrite (strip_id _ _ Hs1) in H2.
  destruct H1 as [H1|H1]; [destruct H2 as [H2|H2]|].
  - left; congruence.
  - right; right; assumption.
  - right; left. destruct H1 as [H1|[]]. assumption.
Qed.

Lemma verify_loop_touched (feed : nat -> Z -> fetch_result) (alerts : list alert_row) :
  forall k rows, Forall2 (touched (map alert_id alerts)) rows
                   (fst (verify_loop feed k alerts rows)).
Proof.
  induction alerts as [|a rest IH]; intros k rows; simpl map.
  - apply Forall2_refl_touched.
  - rewrite verify_loop_cons.
    apply Forall2_compose with (R := touched [alert_id a])
      (Q := touched (map alert_id rest)) (l2 := step_rows (feed k (fixture_id a)) a rows).
    + apply touched_compose.
    + unfold step_rows. destruct (record_outcome _ _);
        [apply set_goal_touched|apply Forall2_refl_touched].
    + apply IH.
Qed.

Lemma find_row_unique (rows : list alert_row) (r c : alert_row) :
  NoDup (map alert_id rows) -> In r rows -> In c rows -> alert_id c = alert_id r -> c = r.
Proof.
  intros Hnd Hr Hc E.
  pose proof (find_row_in rows r Hnd Hr) as H1.
  pose proof (find_row_in rows c Hnd Hc) as H2.
  rewrite E, H1 in H2. injection H2 as ->. reflexivity.
Qed.

Lemma snd_verifyGoalOutcomes (feed : nat -> Z -> fetch_result) (now : Z) (rows : list alert_row) :
  snd (verifyGoalOutcomes feed now rows) =
  fst (verify_loop feed 0 (select_unverified now rows) rows).
Proof.
  unfold verifyGoalOutcomes. destruct (verify_loop _ _ _ _); reflexivity.
Qed.

(** A run changes the rows in place, and only the outcome of an unresolved
    row older than the window. *)
Lemma verify_run_touched (feed : nat -> Z -> fetch_result) (now : Z) (rows : list alert_row) :
  NoDup (map alert_id rows) ->
  Forall2 (fun r r' => strip r' = strip r /\
             (goal_happened r' = goal_happened r \/
              (goal_happened r = None /\ created_at r < now - observation_window)))
    rows (snd (verifyGoalOutcomes feed now rows)).
Proof.
  intro Hnd. rewrite snd_verifyGoalOutcomes.
  eapply Forall2_weaken; [|apply verify_loop_touched].
  intros r r' Hr [Hs [Hg|Hin]]; split; [assumption|left; assumption|assumption|right].
  apply in_map_iff in Hin as (c & Hc & Hcin).
  destruct (select_in now rows c Hcin) as (Hc' & Hgc & Htc).
  rewrite <- (find_row_unique rows r c Hnd Hr Hc' Hc). split; assumption.
Qed.

Lemma verify_loop_count (feed : nat -> Z -> fetch_result) (alerts : list alert_row) :
  forall k rows, 0 <= snd (verify_loop feed k alerts rows) <= Z.of_nat (List.length alerts).
Proof.
  induction alerts as [|a rest IH]; intros k rows; simpl; [lia|].
  set (rows1 := match feed k (fixture_id a) with
                | FetchError _ => rows
                | FetchOk (Some (fx :: _)) => set_goal (alert_id a) (goal_outcome fx a) rows
                | FetchOk _ => rows end).
  specialize (IH (S k) rows1).
  destruct (verify_loop feed (S k) rest rows1) as [rows2 n]. simpl in *.
  destruct (feed k (fixture_id a)) as [|[[|]|]]; lia.
Qed.

End RunFacts.

(** ** Counting lemmas for the statistics query *)
Module CountFacts.
Import Ledger Daily.

Lemma filter_length_le {A} (f : A -> bool) (l : list A) :
  (List.length (filter f l) <= List.length l)%nat.
Proof.
  induction l as [|x l IH]; simpl; [lia|]. destruct (f x); simpl; lia.
Qed.

Lemma nodup_length_le (l : list Z) :
  (List.length (nodup Z.eq_dec l) <= List.length l)%nat.
Proof.
  induction l as [|x l IH]; simpl; [lia|]. destruct (in_dec Z.eq_dec x l); simpl; lia.
Qed.

Lemma nodup_nonempty (l : list Z) : l <> [] -> nodup Z.eq_dec l <> [].
Proof.
  destruct l as [|x l]; [congruence|]. intros _ E.
  assert (H : In x (nodup Z.eq_dec (x :: l))) by (apply nodup_In; left; reflexivity).
  rewrite E in H. destruct H.
Qed.

(** Counting rows through a row-for-row relation. *)
Lemma filter_length_Forall2 {A} (P : A -> A -> Prop) (f g : A -> bool) (l l' : list A) :
  (forall x y, P x y -> f x = true -> g y = true) -> Forall2 P l l' ->
  (List.length (filter f l) <= List.length (filter g l'))%nat.
Proof.
  intros Hfg H. induction H as [|x y l l' Hxy H IH]; simpl; [lia|].
  destruct (f x) eqn:Ef.
  - rewrite (Hfg x y Hxy Ef). simpl. lia.
  - destruct (g y); simpl; lia.
Qed.

Lemma filter_filter_length {A} (f g : A -> bool) (l : list A) :
  List.length (filter g (filter f l)) = List.length (filter (fun x => f x && g x) l).
Proof.
  induction l as [|x l IH]; simpl; [reflexivity|].
  destruct (f x); simpl; [destruct (g x); simpl; lia|assumption].
Qed.

End CountFacts.

(** ** The midnight check as a remainder *)
Module WorkflowFacts.
Import Workflow.

Lemma isMidnight_mod (t : Z) : isMidnight t = (t mod 86400000 <? 60000).
Proof.
  unfold isMidnight, getUTCHours, getUTCMinutes, msPerHour, msPerMinute.
  pose proof (Z.div_mod t 3600000 ltac:(lia)). pose proof (Z.mod_pos_bound t 3600000 ltac:(lia)).
  pose proof (Z.div_mod t 60000 ltac:(lia)). pose proof (Z.mod_pos_bound t 60000 ltac:(lia)).
  pose proof (Z.div_mod t 86400000 ltac:(lia)). pose proof (Z.mod_pos_bound t 86400000 ltac:(lia)).
  pose proof (Z.div_mod (t / 3600000) 24 ltac:(lia)).
  pose proof (Z.mod_pos_bound (t / 3600000) 24 ltac:(lia)).
  pose proof (Z.div_mod (t / 60000) 60 ltac:(lia)).
  pose proof (Z.mod_pos_bound (t / 60000) 60 ltac:(lia)).
  set (a := t / 3600000) in *. set (b := t / 60000) in *. set (c := t / 86400000) in *.
  set (a' := a / 24) in *. set (b' := b / 60) in *.
  set (ra := t mod 3600000) in *. set (rb := t mod 60000) in *. set (rc := t mod 86400000) in *.
  set (ha := a mod 24) in *. set (hb := b mod 60) in *.
  clearbody a b c a' b' ra rb rc ha hb.
  apply eq_true_iff_eq. rewrite andb_true_iff, !Z.eqb_eq, Z.ltb_lt.
  split; intros; lia.
Qed.

End WorkflowFacts.

(** * Claims *)
Module Claims.
Import JSNum JSOrder Pressure AlertPolicy Ledger Verifier VerifierFacts Daily DailyFacts.

(** ** PressureScorer *)

Definition stats_list (t : team) : list stat_item :=
  match statistics t with Some l => l | None => [] end.

(** C1: on a snapshot whose first two entries are team objects, the result
    is a success whose per-team pressure is
    [attacks*0.5 + shotsOnGoal*1.5 + corners*0.8] of the extracted counts,
    with [pressTotal = pressHome + pressAway] and
    [pressDiff = |pressHome - pressAway|], each one JS operation. *)
Theorem C1_pressure_formula (home away : team) (rest : list entry) :
  let aH := find_stat (stats_list home) "Total attacks" in
  let aA := find_stat (stats_list away) "Total attacks" in
  let sH := find_stat (stats_list home) "Shots on Goal" in
  let sA := find_stat (stats_list away) "Shots on Goal" in
  let cH := find_stat (stats_list home) "Corner Kicks" in
  let cA := find_stat (stats_list away) "Corner Kicks" in
  let r := calculatePressure (EObj home :: EObj away :: rest) in
  success r = true /\ error r = None /\
  attacksHome r = aH /\ attacksAway r = aA /\ shotsHome r = sH /\
  shotsAway r = sA /\ cornersHome r = cH /\ cornersAway r = cA /\
  pressHome r = add (add (mul aH (lit 5 10)) (mul sH (lit 15 10))) (mul cH (lit 8 10)) /\
  pressAway r = add (add (mul aA (lit 5 10)) (mul sA (lit 15 10))) (mul cA (lit 8 10)) /\
  pressTotal r = add (pressHome r) (pressAway r) /\
  pressDiff r = abs (sub (pressHome r) (pressAway r)).
Proof.
  intros. subst aH aA sH sA cH cA r.
  unfold calculatePressure, execute_body. simpl.
  repeat split; reflexivity.
Qed.

(** C5: with fewer than two entries the body returns (it does not throw)
    a failure: [success = false], the insufficient-data message and every
    metric zero. *)
Theorem C5_insufficient_data (stats : list entry) :
  (List.length stats < 2)%nat ->
  execute_body stats = Ok (failure "Insufficient statistics data") /\
  calculatePressure stats = failure "Insufficient statistics data" /\
  success (calculatePressure stats) = false /\
  error (calculatePressure stats) = Some "Insufficient statistics data"%string /\
  pressHome (calculatePressure stats) = of_Z 0 /\ pressAway (calculatePressure stats) = of_Z 0 /\
  pressTotal (calculatePressure stats) = of_Z 0 /\ pressDiff (calculatePressure stats) = of_Z 0 /\
  attacksHome (calculatePressure stats) = of_Z 0 /\ attacksAway (calculatePressure stats) = of_Z 0 /\
  shotsHome (calculatePressure stats) = of_Z 0 /\ shotsAway (calculatePressure stats) = of_Z 0 /\
  cornersHome (calculatePressure stats) = of_Z 0 /\ cornersAway (calculatePressure stats) = of_Z 0.
Proof.
  intro H.
  assert (E : execute_body stats = Ok (failure "Insufficient statistics data")).
  { unfold execute_body. apply Nat.ltb_lt in H. rewrite H. reflexivity. }
  unfold calculatePressure. rewrite E. repeat split; reflexivity.
Qed.

Lemma C5_witness :
  (List.length [EObj {| statistics := None |}] < 2)%nat /\
  calculatePressure [EObj {| statistics := None |}] = failure "Insufficient statistics data".
Proof.
  split; [simpl; lia|].
  apply (C5_insufficient_data [EObj {| statistics := None |}]). simpl; lia.
Defined.

(** Scenario A of the spec: home 10 attacks, 3 shots on goal, 5 corners;
    away 4, 1, 2. *)
Definition scenarioA : list entry := [team_of 10 3 5; team_of 4 1 2].

(** C8 (as stated): [pressHome] is 14.5 on scenario A.  It is not. *)
Lemma C8_counterexample :
  pressHome (calculatePressure scenarioA) <> lit 145 10 /\
  pressTotal (calculatePressure scenarioA) <> lit 196 10 /\
  pressDiff (calculatePressure scenarioA) <> lit 94 10.
Proof.
  repeat split; intro H; vm_compute in H; discriminate H.
Qed.

(** C8 (amended): on scenario A the scorer returns [pressHome = 13.5]
    ([10*0.5 + 3*1.5 + 5*0.8]), [pressAway = 5.1], [pressTotal = 18.6] and
    [pressDiff = 8.4], each the double nearest to that decimal. *)
Theorem C8_scenario_A :
  success (calculatePressure scenarioA) = true /\
  pressHome (calculatePressure scenarioA) = lit 135 10 /\
  pressAway (calculatePressure scenarioA) = lit 51 10 /\
  pressTotal (calculatePressure scenarioA) = lit 186 10 /\
  pressDiff (calculatePressure scenarioA) = lit 84 10.
Proof.
  repeat split; vm_compute; reflexivity.
Qed.

(** ** AlertPolicy *)

(** C7: raising any of the three thresholds, metrics fixed, never turns a
    no-alert verdict into an alert: an alert under the raised thresholds
    is an alert under the original ones. *)
Theorem C7_alert_monotone (m : pressure_result) (shots corners : double)
    (t t' : thresholds) :
  leb (thresholdTotal t) (thresholdTotal t') = true ->
  leb (thresholdDiff t) (thresholdDiff t') = true ->
  leb (escanteios10min t) (escanteios10min t') = true ->
  should_alert m shots corners t' = true -> should_alert m shots corners t = true.
Proof.
  intros HT HD HE. unfold should_alert.
  rewrite !orb_true_iff, !andb_true_iff.
  intros [[H|[H1 H2]]|H]; [left; left|left; right; split|right];
    eauto using leb_trans.
Qed.

Lemma C7_witness :
  let m := calculatePressure [team_of 60 8 9; team_of 40 2 3] in
  let t := {| thresholdTotal := of_Z 70; thresholdDiff := of_Z 15;
              escanteios10min := of_Z 3 |} in
  let t' := {| thresholdTotal := of_Z 80; thresholdDiff := of_Z 20;
               escanteios10min := of_Z 13 |} in
  should_alert m (of_Z 8) (of_Z 12) t' = true /\
  should_alert m (of_Z 8) (of_Z 12) t = true.
Proof.
  intros m t t'. split; [vm_compute; reflexivity|].
  apply (C7_alert_monotone m (of_Z 8) (of_Z 12) t t');
    vm_compute; reflexivity.
Defined.

(** ** ThresholdAdjuster *)

Lemma ltb_85_50 : ltb (of_Z 85) (of_Z 50) = false.
Proof. vm_compute. reflexivity. Qed.

(** C2: over the trailing-24-hour resolved rows, [accuracy] is
    [goalsConfirmed / alertsSent * 100] (0 when [alertsSent = 0]) and the
    factor is -0.05 when [accuracy > 85], +0.05 when [accuracy < 50] and
    [alertsSent >= 3], 0 otherwise; the run issues the update with that
    factor exactly when it is not 0. *)
Theorem C2_accuracy_and_factor (now : Z) (d : db) :
  let st := stats_of now (alerts d) in
  let a := total_alerts st in
  let g := goals_confirmed st in
  let acc := accuracy_of a g in
  let f := adjustment_factor acc a in
  (a = 0 -> acc = of_Z 0) /\
  (a <> 0 -> acc = mul (div (of_Z g) (of_Z a)) (of_Z 100)) /\
  (ltb (of_Z 85) acc = true -> f = SFopp (lit 5 100)) /\
  (ltb acc (of_Z 50) = true -> a >= 3 -> f = lit 5 100) /\
  (ltb (of_Z 85) acc = false -> (ltb acc (of_Z 50) = false \/ a < 3) -> f = of_Z 0) /\
  (forall row, thresholds_row d = Some row ->
     snd (fst (performDailyAnalysis now d)) =
     if SFeqb f (of_Z 0) then None else Some (new_thresholds (current_of row) f)).
Proof.
  intros st a g acc f.
  assert (Ha : 0 <= a) by (subst a st; unfold stats_of; simpl; lia).
  split; [|split; [|split; [|split; [|split]]]].
  - intro H0. subst acc. unfold accuracy_of. rewrite H0. reflexivity.
  - intro H0. subst acc. unfold accuracy_of.
    replace (a >? 0) with true by (symmetry; apply Z.gtb_lt; lia). reflexivity.
  - intro H. subst f. unfold adjustment_factor. rewrite H. reflexivity.
  - intros H H3. subst f. unfold adjustment_factor.
    replace (ltb (of_Z 85) acc) with false.
    + rewrite H. replace (a >=? 3) with true by (symmetry; apply Z.geb_le; lia).
      reflexivity.
    + destruct (ltb (of_Z 85) acc) eqn:E; [|reflexivity].
      exfalso. assert (Hc : ltb (of_Z 85) (of_Z 50) = true)
        by (apply ltb_leb_trans with acc; auto using ltb_leb).
      rewrite ltb_85_50 in Hc. discriminate.
  - intros H1 H2. subst f. unfold adjustment_factor. rewrite H1.
    destruct H2 as [H2|H2]; [rewrite H2; reflexivity|].
    replace (a >=? 3) with false by (symmetry; rewrite Z.geb_leb; apply Z.leb_gt; lia).
    rewrite andb_false_r. reflexivity.
  - intros row Hrow. unfold performDailyAnalysis. rewrite Hrow.
    fold st a g acc f.
    destruct (SFeqb f (of_Z 0)); simpl; [reflexivity|].
    destruct (apply_update _); reflexivity.
Qed.

Lemma C2_witness :
  let d := {| alerts := [];
              thresholds_row := Some {| threshold_total := 7000; threshold_diff := 1500;
                                        escanteios_10min := 3 |} |} in
  accuracy_of (total_alerts (stats_of 0 (alerts d))) (goals_confirmed (stats_of 0 (alerts d)))
  = of_Z 0.
Proof.
  intro d. apply (proj1 (C2_accuracy_and_factor 0 d)). reflexivity.
Defined.

(** C3: whatever the stored pair and the accuracy, the new values are
    [clamp(t*(1+factor), 50, 120)] in [50,120] and
    [clamp(d*(1+factor), 10, 30)] in [10,30]; [escanteios10min] is only
    clamped to [2,6], with no factor. *)
Theorem C3_threshold_bounds (row : threshold_row) (acc : double) (a : Z) :
  let f := adjustment_factor acc a in
  let nw := new_thresholds (current_of row) f in
  thresholdTotal nw = clamp 50 120 (mul (lit (threshold_total row) 100) (add (of_Z 1) f)) /\
  thresholdDiff nw = clamp 10 30 (mul (lit (threshold_diff row) 100) (add (of_Z 1) f)) /\
  leb (of_Z 50) (thresholdTotal nw) = true /\ leb (thresholdTotal nw) (of_Z 120) = true /\
  leb (of_Z 10) (thresholdDiff nw) = true /\ leb (thresholdDiff nw) (of_Z 30) = true /\
  escanteios10min nw = clamp 2 6 (of_Z (escanteios_10min row)).
Proof.
  intros f nw.
  destruct (clamp_bounds 50 120 (mul (lit (threshold_total row) 100) (add (of_Z 1) f)))
    as [H1 H2]; [vm_compute; reflexivity|apply scaled_not_nan|].
  destruct (clamp_bounds 10 30 (mul (lit (threshold_diff row) 100) (add (of_Z 1) f)))
    as [H3 H4]; [vm_compute; reflexivity|apply scaled_not_nan|].
  repeat split; assumption.
Qed.

Lemma ltb_irrefl (x : double) : ltb x x = false.
Proof.
  destruct (ltb x x) eqn:E; [|reflexivity].
  apply ltb_spec in E as (_ & _ & E).
  destruct (key x) as [[a b] c]. apply lex_lt in E. lia.
Qed.

(** C6: when the accuracy lies in [50,85] the factor is 0, no UPDATE is
    issued, the database is left as it was, a second run right after
    leaves it identical again, and the result still carries the current
    and the recommended thresholds. *)
Theorem C6_idempotent_no_write (now : Z) (d : db) :
  let st := stats_of now (alerts d) in
  let acc := accuracy_of (total_alerts st) (goals_confirmed st) in
  leb (of_Z 50) acc = true -> leb acc (of_Z 85) = true ->
  adjustment_factor acc (total_alerts st) = of_Z 0 /\
  snd (fst (performDailyAnalysis now d)) = None /\
  snd (performDailyAnalysis now d) = d /\
  snd (performDailyAnalysis now (snd (performDailyAnalysis now d))) = d /\
  (forall row, thresholds_row d = Some row ->
     a_success (fst (fst (performDailyAnalysis now d))) = true /\
     currentThresholds (fst (fst (performDailyAnalysis now d))) = current_of row /\
     recommendedThresholds (fst (fst (performDailyAnalysis now d))) =
       recommended_of (new_thresholds (current_of row) (of_Z 0))).
Proof.
  intros st acc H50 H85.
  assert (Hf : adjustment_factor acc (total_alerts st) = of_Z 0).
  { unfold adjustment_factor.
    replace (ltb (of_Z 85) acc) with false.
    2:{ destruct (ltb (of_Z 85) acc) eqn:E; [|reflexivity].
        rewrite <- (ltb_irrefl (of_Z 85)).
        apply ltb_leb_trans with acc; assumption. }
    replace (ltb acc (of_Z 50)) with false; [reflexivity|].
    destruct (ltb acc (of_Z 50)) eqn:E; [|reflexivity].
    rewrite <- (ltb_irrefl acc).
    apply ltb_leb_trans with (of_Z 50); assumption. }
  assert (Hrun : forall row, thresholds_row d = Some row ->
     performDailyAnalysis now d =
     ({| matchesMonitored := unique_matches st; alertsSent := total_alerts st;
         goalsConfirmed := goals_confirmed st; accuracy := round2 acc;
         currentThresholds := current_of row;
         recommendedThresholds := recommended_of (new_thresholds (current_of row) (of_Z 0));
         a_success := true; a_error := None |}, None, d)).
  { intros row Hrow. unfold performDailyAnalysis. rewrite Hrow.
    fold st acc. rewrite Hf. reflexivity. }
  assert (Hd : snd (fst (performDailyAnalysis now d)) = None /\
               snd (performDailyAnalysis now d) = d).
  { destruct (thresholds_row d) as [row|] eqn:Hrow.
    - rewrite (Hrun row eq_refl). split; reflexivity.
    - unfold performDailyAnalysis. rewrite Hrow. split; reflexivity. }
  destruct Hd as [Hw Hd].
  split; [assumption|]. split; [assumption|]. split; [assumption|].
  split; [rewrite Hd; assumption|].
  intros row Hrow. rewrite (Hrun row Hrow). repeat split.
Qed.

(** An alert row of fixture [i], resolved as [g], created at time 0. *)
Definition resolved_row (i : Z) (g : bool) : alert_row :=
  {| alert_id := i; fixture_id := i; minute := 70; press_total := 7500;
     press_diff := 1600; corners := 6; shots_on_goal := 4;
     goals_at_alert := 1; goal_happened := Some g; created_at := 0 |}.

Definition db_of (rows : list alert_row) (total : Z) : db :=
  {| alerts := rows;
     thresholds_row := Some {| threshold_total := total; threshold_diff := 1500;
                               escanteios_10min := 3 |} |}.

Lemma C6_witness :
  let d := db_of [resolved_row 1 true; resolved_row 2 false] 7000 in
  let st := stats_of 3600 (alerts d) in
  let acc := accuracy_of (total_alerts st) (goals_confirmed st) in
  (leb (of_Z 50) acc = true /\ leb acc (of_Z 85) = true) /\
  snd (performDailyAnalysis 3600 d) = d.
Proof.
  intros d st acc.
  split; [split; vm_compute; reflexivity|].
  apply (C6_idempotent_no_write 3600 d); vm_compute; reflexivity.
Defined.

(** C10: when the factor is not 0 the UPDATE carries the unrounded clamped
    values [nw] (the DECIMAL(10,2) columns then hold their text [String(x)]
    rounded by the database), while [recommendedThresholds] is
    [Math.round(x*100)/100] of them; on a stored total of 52.90 with
    accuracy 100 the UPDATE sends 50.254999999999995 (its text has all 17
    digits), the column keeps 50.25 and the run reports 50.26. *)
Theorem C10_persisted_vs_reported :
  (forall (now : Z) (d : db) (row row' : threshold_row),
     let st := stats_of now (alerts d) in
     let f := adjustment_factor (accuracy_of (total_alerts st) (goals_confirmed st))
                (total_alerts st) in
     let nw := new_thresholds (current_of row) f in
     thresholds_row d = Some row -> SFeqb f (of_Z 0) = false ->
     apply_update nw = Some row' ->
     snd (fst (performDailyAnalysis now d)) = Some nw /\
     thresholds_row (snd (performDailyAnalysis now d)) = Some row' /\
     recommendedThresholds (fst (fst (performDailyAnalysis now d))) = recommended_of nw) /\
  (let run := performDailyAnalysis 3600 (db_of [resolved_row 1 true] 5290) in
   thresholdTotal (recommendedThresholds (fst (fst run))) = lit 5026 100 /\
   option_map thresholdTotal (snd (fst run)) = Some (S754_finite false 7072762477297008 (-47)) /\
   S754_finite false 7072762477297008 (-47) <> lit 5026 100 /\
   option_map threshold_total (thresholds_row (snd run)) = Some 5025 /\
   lit 5025 100 <> lit 5026 100).
Proof.
  split.
  - intros now d row row' st f nw Hrow Hf Hup.
    unfold performDailyAnalysis. rewrite Hrow. fold st f.
    change (new_thresholds (current_of row) f) with nw.
    rewrite Hf. simpl. rewrite Hup. repeat split.
  - vm_compute. repeat split; discriminate.
Qed.

Lemma C10_witness :
  let d := db_of [resolved_row 1 true] 7000 in
  snd (fst (performDailyAnalysis 3600 d)) =
  Some (new_thresholds (current_of {| threshold_total := 7000; threshold_diff := 1500;
                                      escanteios_10min := 3 |})
          (SFopp (lit 5 100))).
Proof.
  intro d.
  refine (proj1 (proj1 C10_persisted_vs_reported 3600 d
     {| threshold_total := 7000; threshold_diff := 1500; escanteios_10min := 3 |}
     {| threshold_total := 6650; threshold_diff := 1425; escanteios_10min := 3 |}
     eq_refl _ _)); vm_compute; reflexivity.
Defined.

(** ** OutcomeVerifier *)

(** An unresolved alert of fixture [fid] with [goals_at_alert = gaa],
    created at time [t]. *)
Definition pending_row (i fid gaa t : Z) : alert_row :=
  {| alert_id := i; fixture_id := fid; minute := 55; press_total := 8000;
     press_diff := 1200; corners := 4; shots_on_goal := 3;
     goals_at_alert := gaa; goal_happened := None; created_at := t |}.

Definition score (h a : Z) : fixture :=
  {| goals := Some {| home := Some h; away := Some a |} |}.

(** Scenario D of the spec: an alert at 1 goal, the later fetch shows 2-0;
    alongside it, an alert whose fetch times out. *)
Definition rowsD : list alert_row := [pending_row 7 300 1 0; pending_row 8 400 0 100].

Definition feedD (k : nat) (fid : Z) : fetch_result :=
  if fid =? 300 then FetchOk (Some [score 2 0]) else FetchError "timeout of 10000ms exceeded".

(** C4: a batch record whose fetch answers with a fixture is resolved to
    [homeGoals + awayGoals > goalsAtAlert], strict: an equal total gives
    false; on scenario D the record is resolved to true. *)
Theorem C4_goal_outcome :
  (forall (feed : nat -> Z -> fetch_result) (now : Z) (rows : list alert_row)
          (j : nat) (c : alert_row) (fx : fixture) (more : list fixture),
     NoDup (map alert_id rows) ->
     nth_error (select_unverified now rows) j = Some c ->
     feed j (fixture_id c) = FetchOk (Some (fx :: more)) ->
     find_row (alert_id c) (snd (verifyGoalOutcomes feed now rows)) =
       Some (with_goal c (homeGoals fx + awayGoals fx >? goals_at_alert c)) /\
     (homeGoals fx + awayGoals fx = goals_at_alert c ->
        goal_outcome fx c = false)) /\
  option_map goal_happened
    (find_row 7 (snd (verifyGoalOutcomes feedD 3600 rowsD))) = Some (Some true).
Proof.
  split.
  - intros feed now rows j c fx more Hnd Hj Hf.
    split.
    + rewrite (verify_row feed now rows j c Hnd Hj), Hf. reflexivity.
    + intro E. unfold goal_outcome. rewrite E, Z.gtb_ltb. apply Z.ltb_irrefl.
  - vm_compute. reflexivity.
Qed.

Lemma C4_witness :
  NoDup (map alert_id rowsD) /\
  nth_error (select_unverified 3600 rowsD) 0%nat = Some (pending_row 7 300 1 0) /\
  find_row 7 (snd (verifyGoalOutcomes feedD 3600 rowsD)) =
    Some (with_goal (pending_row 7 300 1 0) true).
Proof.
  assert (Hnd : NoDup (map alert_id rowsD)).
  { simpl. constructor; [simpl; lia|]. constructor; [simpl; lia|constructor]. }
  split; [exact Hnd|]. split; [vm_compute; reflexivity|].
  exact (proj1 (proj1 C4_goal_outcome feedD 3600 rowsD 0%nat (pending_row 7 300 1 0)
    (score 2 0) [] Hnd eq_refl eq_refl)).
Defined.

(** C9: in one run, the batch record fetched at call [j] ends up as
    decided by that call alone: a failed fetch leaves it exactly as it was
    (unresolved), a fetched fixture resolves it, whatever the other calls
    of the batch did. *)
Theorem C9_fetch_failure_isolated (feed : nat -> Z -> fetch_result) (now : Z)
    (rows : list alert_row) (j : nat) (c : alert_row) :
  NoDup (map alert_id rows) ->
  nth_error (select_unverified now rows) j = Some c ->
  goal_happened c = None /\
  find_row (alert_id c) (snd (verifyGoalOutcomes feed now rows)) =
    match feed j (fixture_id c) with
    | FetchError _ => Some c
    | FetchOk (Some (fx :: _)) => Some (with_goal c (goal_outcome fx c))
    | FetchOk _ => Some c
    end /\
  (forall feed' : nat -> Z -> fetch_result,
     feed' j (fixture_id c) = feed j (fixture_id c) ->
     find_row (alert_id c) (snd (verifyGoalOutcomes feed' now rows)) =
     find_row (alert_id c) (snd (verifyGoalOutcomes feed now rows))).
Proof.
  intros Hnd Hj.
  assert (Hin := select_in now rows c (nth_error_In _ _ Hj)).
  split; [apply Hin|]. split.
  - rewrite (verify_row feed now rows j c Hnd Hj).
    unfold record_outcome. destruct (feed j (fixture_id c)) as [|[[|fx l]|]]; reflexivity.
  - intros feed' Hf.
    rewrite (verify_row feed' now rows j c Hnd Hj), (verify_row feed now rows j c Hnd Hj), Hf.
    reflexivity.
Qed.

Lemma C9_witness :
  NoDup (map alert_id rowsD) /\
  nth_error (select_unverified 3600 rowsD) 1%nat = Some (pending_row 8 400 0 100) /\
  find_row 8 (snd (verifyGoalOutcomes feedD 3600 rowsD)) = Some (pending_row 8 400 0 100).
Proof.
  assert (Hnd : NoDup (map alert_id rowsD)).
  { simpl. constructor; [simpl; lia|]. constructor; [simpl; lia|constructor]. }
  split; [exact Hnd|]. split; [vm_compute; reflexivity|].
  exact (proj1 (proj2 (C9_fetch_failure_isolated feedD 3600 rowsD 1%nat
    (pending_row 8 400 0 100) Hnd eq_refl))).
Defined.

End Claims.

(** * Further properties of the code *)
Module Extras.
Import JSNum JSString Pressure AlertPolicy Ledger Verifier VerifierFacts Daily.
Import Env FixtureStats CurrentThresholds InitDb Store Workflow.
Import FloatSym RunFacts CountFacts WorkflowFacts.

Ltac nodup_ids := simpl; repeat (constructor; [simpl; intuition lia|]); constructor.

(** An alert row of fixture [fid] with outcome [g], created at [t]. *)
Definition row_at (i fid : Z) (g : option bool) (t : Z) : alert_row :=
  {| alert_id := i; fixture_id := fid; minute := 60; press_total := 7200;
     press_diff := 1600; corners := 5; shots_on_goal := 3;
     goals_at_alert := 1; goal_happened := g; created_at := t |}.

Definition rowsE : list alert_row :=
  [row_at 1 100 None 0; row_at 2 200 (Some true) 0; row_at 3 300 None 5000].

Definition feedE (k : nat) (fid : Z) : fetch_result :=
  FetchOk (Some [{| goals := Some {| home := Some 2; away := None |} |}]).

(** ** OutcomeVerifier *)

(** X1: a run checks at most 50 records ([LIMIT 50]) and updates at most
    the records it checked. *)
Theorem verify_counts (feed : nat -> Z -> fetch_result) (now : Z) (rows : list alert_row) :
  let res := fst (verifyGoalOutcomes feed now rows) in
  0 <= updated res <= checked res /\ checked res <= 50.
Proof.
  unfold verifyGoalOutcomes.
  pose proof (verify_loop_count feed (select_unverified now rows) 0 rows) as H.
  assert (Hb : (List.length (select_unverified now rows) <= 50)%nat)
    by (unfold select_unverified; apply firstn_le_length).
  destruct (verify_loop feed 0 (select_unverified now rows) rows) as [rows' n].
  simpl in *. lia.
Qed.

(** X2: with distinct ids, a run gives back the table row for row: no row
    is added, removed or reordered, no column but [goal_happened] changes,
    and [goal_happened] changes only on a row that was unresolved and
    older than ten minutes. *)
Theorem verify_changes_only_pending (feed : nat -> Z -> fetch_result) (now : Z)
    (rows : list alert_row) :
  NoDup (map alert_id rows) ->
  Forall2 (fun r r' => strip r' = strip r /\
             (goal_happened r' = goal_happened r \/
              (goal_happened r = None /\ created_at r < now - observation_window)))
    rows (snd (verifyGoalOutcomes feed now rows)).
Proof.
  apply verify_run_touched.
Qed.

Lemma verify_changes_only_pending_witness :
  NoDup (map alert_id rowsE) /\
  Forall2 (fun r r' => strip r' = strip r /\
             (goal_happened r' = goal_happened r \/
              (goal_happened r = None /\ created_at r < 3600 - observation_window)))
    rowsE (snd (verifyGoalOutcomes feedE 3600 rowsE)).
Proof.
  assert (H : NoDup (map alert_id rowsE)) by nodup_ids.
  split; [exact H|]. exact (verify_changes_only_pending feedE 3600 rowsE H).
Defined.

(** X3: a verifier run never lowers the counts the daily analysis reads,
    at any time [t]: [total_alerts] and [goals_confirmed] after the run
    are at least those before it. *)
Theorem verify_stats_monotone (feed : nat -> Z -> fetch_result) (now t : Z)
    (rows : list alert_row) :
  NoDup (map alert_id rows) ->
  let st := stats_of t rows in
  let st' := stats_of t (snd (verifyGoalOutcomes feed now rows)) in
  total_alerts st <= total_alerts st' /\ goals_confirmed st <= goals_confirmed st'.
Proof.
  intros Hnd st st'. subst st st'.
  pose proof (verify_run_touched feed now rows Hnd) as H.
  set (rows' := snd (verifyGoalOutcomes feed now rows)) in *.
  assert (Hrel : forall r r',
    (strip r' = strip r /\
     (goal_happened r' = goal_happened r \/
      (goal_happened r = None /\ created_at r < now - observation_window))) ->
    created_at r' = created_at r /\
    (goal_happened r <> None -> goal_happened r' = goal_happened r)).
  { intros r r' [Hs [Hg|[Hg _]]]; split; try exact (f_equal created_at Hs);
      intro Hn; [assumption|contradiction]. }
  unfold stats_of. simpl. rewrite !filter_filter_length. split; apply Nat2Z.inj_le.
  - refine (filter_length_Forall2 _ _ _ rows rows' _ H).
    intros r r' Hrr' Hf. destruct (Hrel r r' Hrr') as [Ht Hg].
    unfold resolved_in_window in *. rewrite Ht.
    destruct (goal_happened r) eqn:E; [|rewrite andb_false_r in Hf; discriminate].
    rewrite Hg by congruence. exact Hf.
  - refine (filter_length_Forall2 _ _ _ rows rows' _ H).
    intros r r' Hrr' Hf. destruct (Hrel r r' Hrr') as [Ht Hg].
    unfold resolved_in_window in *. rewrite Ht.
    destruct (goal_happened r) eqn:E; [|rewrite andb_false_r in Hf; discriminate].
    rewrite Hg by congruence. exact Hf.
Qed.

Lemma verify_stats_monotone_witness :
  NoDup (map alert_id rowsE) /\
  total_alerts (stats_of 3600 rowsE) <=
  total_alerts (stats_of 3600 (snd (verifyGoalOutcomes feedE 3600 rowsE))).
Proof.
  assert (H : NoDup (map alert_id rowsE)) by nodup_ids.
  split; [exact H|]. exact (proj1 (verify_stats_monotone feedE 3600 3600 rowsE H)).
Defined.

(** ** ThresholdAdjuster *)

(** X4: the counts of the statistics query are consistent: [goals_confirmed]
    and [unique_matches] never exceed [total_alerts], and some match is
    counted as soon as some alert is. *)
Theorem stats_bounds (now : Z) (rows : list alert_row) :
  let st := stats_of now rows in
  0 <= goals_confirmed st <= total_alerts st /\
  0 <= unique_matches st <= total_alerts st /\
  (0 < total_alerts st -> 0 < unique_matches st).
Proof.
  unfold stats_of. simpl.
  set (sel := filter (resolved_in_window now) rows).
  pose proof (filter_length_le
    (fun r => match goal_happened r with Some true => true | _ => false end) sel).
  pose proof (nodup_length_le (map fixture_id sel)).
  rewrite length_map in *.
  split; [lia|]. split; [lia|].
  intro Hpos. destruct sel as [|r sel']; [simpl in Hpos; lia|].
  destruct (nodup Z.eq_dec (map fixture_id (r :: sel'))) eqn:E.
  - exfalso. apply (nodup_nonempty (map fixture_id (r :: sel'))); [discriminate|exact E].
  - simpl. lia.
Qed.

Lemma stats_bounds_witness :
  0 < total_alerts (stats_of 3600 rowsE) /\ 0 < unique_matches (stats_of 3600 rowsE).
Proof.
  split; [vm_compute; reflexivity|].
  apply (proj2 (proj2 (stats_bounds 3600 rowsE))). vm_compute. reflexivity.
Defined.

(** X5: the daily analysis never changes the alert ledger, and a run that
    issues no UPDATE, or that fails, leaves the database as it was. *)
Theorem daily_writes (now : Z) (d : db) :
  let run := performDailyAnalysis now d in
  alerts (snd run) = alerts d /\
  (snd (fst run) = None -> snd run = d) /\
  (a_success (fst (fst run)) = false -> snd run = d).
Proof.
  unfold performDailyAnalysis.
  destruct (thresholds_row d) as [row|]; [|repeat split].
  destruct (negb _); [destruct (apply_update _)|]; simpl; repeat split;
    intro H; discriminate H.
Qed.

Lemma daily_writes_witness :
  let d := {| alerts := rowsE; thresholds_row := None |} in
  snd (fst (performDailyAnalysis 3600 d)) = None /\ snd (performDailyAnalysis 3600 d) = d.
Proof.
  intro d. split; [reflexivity|].
  apply (proj1 (proj2 (daily_writes 3600 d))). reflexivity.
Defined.

(** X6: the two readers of [football_thresholds] agree.  Without the row,
    [getCurrentThresholds] succeeds with 70, 15 and 3, while
    [performDailyAnalysis] fails and writes nothing; with the row, both
    read the same three numbers from it. *)
Theorem thresholds_readers (url : string) (now : Z) (d : db)
    (lu : option string) (now_iso : string) :
  configured (Some url) = true ->
  let g := getCurrentThresholds (Some url) None d lu now_iso in
  let run := performDailyAnalysis now d in
  (thresholds_row d = None ->
     c_success g = true /\ c_thresholds g = defaults /\
     a_success (fst (fst run)) = false /\ snd (fst run) = None /\ snd run = d) /\
  (forall row, thresholds_row d = Some row ->
     c_success g = true /\ c_thresholds g = current_of row /\
     (a_success (fst (fst run)) = true -> currentThresholds (fst (fst run)) = c_thresholds g)).
Proof.
  intros Hurl g run. subst g run. unfold getCurrentThresholds. rewrite Hurl. simpl.
  split.
  - intro Hrow. unfold performDailyAnalysis. rewrite Hrow. repeat split.
  - intros row Hrow. unfold performDailyAnalysis. rewrite Hrow. simpl.
    repeat split.
    destruct (negb _); [destruct (apply_update _)|]; simpl;
      [reflexivity|intro H; discriminate H|reflexivity].
Qed.

Lemma thresholds_readers_witness :
  let d := {| alerts := rowsE; thresholds_row := None |} in
  configured (Some "postgresql://localhost:5432/mastra"%string) = true /\
  c_thresholds (getCurrentThresholds (Some "postgresql://localhost:5432/mastra"%string) None d
                  None "2025-01-01T00:00:00.000Z") = defaults.
Proof.
  intro d. split; [reflexivity|].
  apply (proj1 (thresholds_readers "postgresql://localhost:5432/mastra" 3600 d None
    "2025-01-01T00:00:00.000Z" eq_refl) eq_refl).
Defined.

(** ** Schema set-up: [initDatabase] *)

(** X7: [initDatabase], run at every import, commits without loss: an
    existing threshold row is kept (adapted thresholds are not reset),
    alert rows are kept as they were (only a missing [goals_at_alert]
    column is added as 0 on every row; the migration's UPDATE of
    [goal_happened] changes no row), and a second run changes nothing. *)
Theorem init_keeps_data (now now' : Z) (s : schema) :
  let s1 := snd (initDatabase false now s) in
  fst (initDatabase false now s) = true /\
  snd (initDatabase false now' s1) = s1 /\
  (forall row, thresholds_table s = Some (Some row) -> thresholds_table s1 = Some (Some row)) /\
  (forall rows, alerts_table s = Some rows ->
     alerts_table s1 = Some (if has_goals_at_alert s then rows
                             else map (fun r => set_goals_at_alert r 0) rows)).
Proof.
  assert (Hmig : forall t l, migration_update t l = l).
  { intros t l. unfold migration_update. rewrite <- (map_id l) at 2. apply map_ext.
    intro r. destruct (goal_happened r) eqn:E; [reflexivity|].
    destruct (created_at r <? t - 600); [|reflexivity].
    destruct r; simpl in *; subst; reflexivity. }
  intro s1. subst s1.
  destruct s as [[rows|] [|] [[row|]|]]; simpl; rewrite ?Hmig;
    repeat split; intros; congruence.
Qed.

Lemma init_keeps_data_witness :
  let s := {| alerts_table := Some rowsE; has_goals_at_alert := true;
              thresholds_table := Some (Some {| threshold_total := 6650; threshold_diff := 1425;
                                                escanteios_10min := 3 |}) |} in
  thresholds_table (snd (initDatabase false 3600 s)) =
    Some (Some {| threshold_total := 6650; threshold_diff := 1425; escanteios_10min := 3 |}).
Proof.
  intro s. apply (proj1 (proj2 (proj2 (init_keeps_data 3600 3600 s)))). reflexivity.
Defined.

(** X8: once [initDatabase] has committed, the threshold row exists: it
    is the row that was there, or the default row, read as 70, 15 and 3
    (the values of the fallback).  [getCurrentThresholds], connected to
    that database, then reads the row itself rather than falling back. *)
Theorem init_then_thresholds (now : Z) (s : schema) (url : option string)
    (last_updated : option string) (now_iso : string) :
  configured url = true ->
  exists d row,
    db_view (snd (initDatabase false now s)) = Some d /\
    thresholds_row d = Some row /\
    (thresholds_table s = Some (Some row) \/ (row = default_row /\ current_of row = defaults)) /\
    c_success (getCurrentThresholds url None d last_updated now_iso) = true /\
    c_thresholds (getCurrentThresholds url None d last_updated now_iso) = current_of row.
Proof.
  intro Hurl.
  assert (Hread : forall d row, thresholds_row d = Some row ->
    c_success (getCurrentThresholds url None d last_updated now_iso) = true /\
    c_thresholds (getCurrentThresholds url None d last_updated now_iso) = current_of row).
  { intros d row Hrow. unfold getCurrentThresholds. rewrite Hurl, Hrow. split; reflexivity. }
  assert (Hdef : current_of default_row = defaults) by (vm_compute; reflexivity).
  destruct s as [[rows|] h [[row|]|]]; destruct h; simpl;
    eexists; eexists; (split; [reflexivity|]); (split; [reflexivity|]);
    (split; [auto|]); eapply Hread; reflexivity.
Qed.

Lemma init_then_thresholds_witness :
  let s := {| alerts_table := None; has_goals_at_alert := false; thresholds_table := None |} in
  configured (Some "postgresql://db"%string) = true /\
  exists d row,
    db_view (snd (initDatabase false 3600 s)) = Some d /\
    thresholds_row d = Some row /\
    (thresholds_table s = Some (Some row) \/ (row = default_row /\ current_of row = defaults)) /\
    c_success (getCurrentThresholds (Some "postgresql://db"%string) None d None
                 "2025-01-01T01:00:00.000Z") = true /\
    c_thresholds (getCurrentThresholds (Some "postgresql://db"%string) None d None
                 "2025-01-01T01:00:00.000Z") = current_of row.
Proof.
  intro s. split; [reflexivity|].
  apply (init_then_thresholds 3600 s (Some "postgresql://db"%string) None
    "2025-01-01T01:00:00.000Z"). reflexivity.
Defined.

(** ** AlertLedger writes: [storeAlert] *)

(** X9: a successful [storeAlert] appends exactly one row, returns its id
    as [alertId], and that id finds it: an unresolved row created now,
    holding the converted input; with a fresh sequence value, ids stay
    distinct.  A failed call leaves the table unchanged. *)
Theorem store_round_trip (to_integer to_decimal : double -> throws Z)
    (url conn : option string) (nextval now : Z) (c : store_context)
    (rows : list alert_row) :
  NoDup (map alert_id rows) -> ~ In nextval (map alert_id rows) ->
  let res := storeAlert to_integer to_decimal url conn nextval now c rows in
  (s_success (fst res) = true ->
     alertId (fst res) = Some nextval /\ NoDup (map alert_id (snd res)) /\
     exists r, snd res = rows ++ [r] /\ find_row nextval (snd res) = Some r /\
       goal_happened r = None /\ created_at r = now /\
       insert_row to_integer to_decimal nextval now c = Ok r) /\
  (s_success (fst res) = false -> snd res = rows /\ alertId (fst res) = None).
Proof.
  intros Hnd Hfresh res. subst res. unfold storeAlert.
  destruct (configured url); simpl; [|split; [discriminate|auto]].
  destruct conn as [msg|]; simpl; [split; [discriminate|auto]|].
  destruct (insert_row to_integer to_decimal nextval now c) as [r|msg] eqn:Hins;
    simpl; [|split; [discriminate|auto]].
  assert (Hr : alert_id r = nextval /\ goal_happened r = None /\ created_at r = now).
  { unfold insert_row, bind in Hins.
    repeat match goal with
           | H : context [match ?x with Ok _ => _ | Throw _ => _ end] |- _ =>
               destruct x; [|discriminate H]
           end.
    injection Hins as <-. repeat split. }
  destruct Hr as (Hid & Hg & Ht).
  split; [|discriminate]. intros _. split; [reflexivity|]. split.
  - rewrite map_app. simpl.
    apply Permutation_NoDup with (alert_id r :: map alert_id rows).
    + apply Permutation_cons_append.
    + constructor; [rewrite Hid; exact Hfresh|exact Hnd].
  - exists r. split; [reflexivity|]. split; [|auto].
    unfold find_row. clear Hnd. induction rows as [|x rows IH]; simpl.
    + rewrite Hid, Z.eqb_refl. reflexivity.
    + replace (alert_id x =? nextval) with false.
      * apply IH. intro H. apply Hfresh. right; exact H.
      * symmetry. apply Z.eqb_neq. intro E. apply Hfresh. left; exact E.
Qed.

Lemma store_round_trip_witness :
  let to_int (x : double) : throws Z :=
    match integer_of x with Some z => Ok z | None => Throw "integer out of range" end in
  let to_dec (x : double) : throws Z :=
    match numeric_of 8 2 x with Some z => Ok z | None => Throw "numeric field overflow" end in
  let c := {| c_fixtureId := of_Z 1035000; c_minute := of_Z 63; c_pressTotal := lit 786 10;
              c_pressDiff := lit 212 10; c_corners := of_Z 7; c_shotsOnGoal := of_Z 5;
              c_goalsAtAlert := of_Z 1 |} in
  NoDup (map alert_id rowsE) /\ ~ In 4 (map alert_id rowsE) /\
  alertId (fst (storeAlert to_int to_dec (Some "postgresql://db"%string) None 4 7200 c rowsE))
    = Some 4.
Proof.
  intros to_int to_dec c.
  assert (H1 : NoDup (map alert_id rowsE)) by nodup_ids.
  assert (H2 : ~ In 4 (map alert_id rowsE)) by (simpl; intuition lia).
  split; [exact H1|]. split; [exact H2|].
  apply (proj1 (store_round_trip to_int to_dec (Some "postgresql://db"%string) None 4 7200 c
    rowsE H1 H2)). vm_compute. reflexivity.
Defined.

(** X10: a stored alert is invisible to the rest of the loop until it is
    resolved: the daily statistics are those of the table without it,
    and no verifier run up to ten minutes after it was stored selects it
    (the batch is the same as without it). *)
Theorem store_invisible (to_integer to_decimal : double -> throws Z)
    (url conn : option string) (nextval now t : Z) (c : store_context)
    (rows : list alert_row) :
  let rows' := snd (storeAlert to_integer to_decimal url conn nextval now c rows) in
  stats_of t rows' = stats_of t rows /\
  (t <= now + observation_window -> select_unverified t rows' = select_unverified t rows).
Proof.
  intro rows'. subst rows'. unfold storeAlert.
  destruct (configured url); simpl; [|split; reflexivity].
  destruct conn as [msg|]; simpl; [split; reflexivity|].
  destruct (insert_row to_integer to_decimal nextval now c) as [r|msg] eqn:Hins;
    simpl; [|split; reflexivity].
  assert (Hr : goal_happened r = None /\ created_at r = now).
  { unfold insert_row, bind in Hins.
    repeat match goal with
           | H : context [match ?x with Ok _ => _ | Throw _ => _ end] |- _ =>
               destruct x; [|discriminate H]
           end.
    injection Hins as <-. split; reflexivity. }
  destruct Hr as [Hg Ht]. split.
  - unfold stats_of. rewrite filter_app. simpl.
    replace (resolved_in_window t r) with false
      by (unfold resolved_in_window; rewrite Hg, andb_false_r; reflexivity).
    rewrite app_nil_r. reflexivity.
  - intro Hle. unfold select_unverified. rewrite filter_app. simpl. rewrite Hg.
    replace (created_at r <? t - observation_window) with false
      by (symmetry; apply Z.ltb_ge; unfold observation_window in *; lia).
    rewrite app_nil_r. reflexivity.
Qed.

Lemma store_invisible_witness :
  let to_int (x : double) : throws Z :=
    match integer_of x with Some z => Ok z | None => Throw "integer out of range" end in
  let c := {| c_fixtureId := of_Z 1035000; c_minute := of_Z 63; c_pressTotal := lit 786 10;
              c_pressDiff := lit 212 10; c_corners := of_Z 7; c_shotsOnGoal := of_Z 5;
              c_goalsAtAlert := of_Z 1 |} in
  7500 <= 7200 + observation_window /\
  select_unverified 7500 (snd (storeAlert to_int to_int (Some "postgresql://db"%string) None
                              4 7200 c rowsE)) = select_unverified 7500 rowsE.
Proof.
  intros to_int c. split; [vm_compute; discriminate|].
  apply (proj2 (store_invisible to_int to_int (Some "postgresql://db"%string) None 4 7200 7500
    c rowsE)). vm_compute. discriminate.
Defined.

(** ** PressureScorer *)

(** X11: the scorer is symmetric in the two teams: swapping the first two
    entries swaps every home and away metric, keeps [success],
    [pressTotal] and [pressDiff], and so never changes the alert
    decision. *)
Theorem pressure_swap (h a : entry) (rest : list entry) :
  let r := calculatePressure (h :: a :: rest) in
  let r' := calculatePressure (a :: h :: rest) in
  success r' = success r /\
  pressHome r' = pressAway r /\ pressAway r' = pressHome r /\
  pressTotal r' = pressTotal r /\ pressDiff r' = pressDiff r /\
  attacksHome r' = attacksAway r /\ attacksAway r' = attacksHome r /\
  shotsHome r' = shotsAway r /\ shotsAway r' = shotsHome r /\
  cornersHome r' = cornersAway r /\ cornersAway r' = cornersHome r /\
  (forall shots crn t, should_alert r' shots crn t = should_alert r shots crn t).
Proof.
  intros r r'.
  assert (H : success r' = success r /\
    pressHome r' = pressAway r /\ pressAway r' = pressHome r /\
    pressTotal r' = pressTotal r /\ pressDiff r' = pressDiff r /\
    attacksHome r' = attacksAway r /\ attacksAway r' = attacksHome r /\
    shotsHome r' = shotsAway r /\ shotsAway r' = shotsHome r /\
    cornersHome r' = cornersAway r /\ cornersAway r' = cornersHome r).
  { subst r r'. unfold calculatePressure, execute_body.
    destruct h, a; cbn -[add mul sub abs find_stat pressure];
      repeat split; solve [reflexivity | apply add_comm | apply abs_sub_swap]. }
  split; [apply H|]. split; [apply H|]. split; [apply H|]. split; [apply H|].
  split; [apply H|]. split; [apply H|]. split; [apply H|]. split; [apply H|].
  split; [apply H|]. split; [apply H|]. split; [apply H|].
  intros shots crn t. unfold should_alert.
  destruct H as (_ & _ & _ & HT & HD & _). rewrite HT, HD. reflexivity.
Qed.

(** X13: a statistic whose name no entry carries reads as 0. *)
Theorem stat_missing_zero (items : list stat_item) (key : string) :
  (forall it ty, In it items -> stat_type it = Some ty -> toLowerCase ty <> toLowerCase key) ->
  find_stat items key = of_Z 0.
Proof.
  induction items as [|it items IH]; intro H; simpl; [reflexivity|].
  destruct (stat_type it) as [ty|] eqn:E.
  - replace (String.eqb (toLowerCase ty) (toLowerCase key)) with false.
    + apply IH. intros; eapply H; [right|]; eassumption.
    + symmetry. apply String.eqb_neq. apply (H it ty); [left; reflexivity|exact E].
  - apply IH. intros; eapply H; [right|]; eassumption.
Qed.

Lemma stat_missing_zero_witness :
  find_stat [num_item "Total attacks" 12; num_item "Shots on Goal" 4] "Corner Kicks" = of_Z 0.
Proof.
  apply stat_missing_zero. intros it ty Hin Hty.
  destruct Hin as [<-|[<-|[]]]; injection Hty as <-; discriminate.
Defined.

(** X15: the result is never half-filled: [error] is absent exactly when
    [success] is true, and a failed result has all ten metrics 0. *)
Theorem pressure_failure_zero (stats : list entry) :
  let r := calculatePressure stats in
  (success r = true -> error r = None) /\
  (success r = false ->
     error r <> None /\
     pressHome r = of_Z 0 /\ pressAway r = of_Z 0 /\ pressTotal r = of_Z 0 /\
     pressDiff r = of_Z 0 /\ attacksHome r = of_Z 0 /\ attacksAway r = of_Z 0 /\
     shotsHome r = of_Z 0 /\ shotsAway r = of_Z 0 /\ cornersHome r = of_Z 0 /\
     cornersAway r = of_Z 0).
Proof.
  intro r. subst r. unfold calculatePressure, execute_body.
  destruct (List.length stats <? 2)%nat.
  - simpl. split; [discriminate|]. intros _. repeat split. discriminate.
  - unfold bind.
    destruct (getStatValue _ "Total attacks"); [|split; [discriminate|]; intros _; repeat split; discriminate].
    destruct (getStatValue _ "Total attacks"); [|split; [discriminate|]; intros _; repeat split; discriminate].
    destruct (getStatValue _ "Shots on Goal"); [|split; [discriminate|]; intros _; repeat split; discriminate].
    destruct (getStatValue _ "Shots on Goal"); [|split; [discriminate|]; intros _; repeat split; discriminate].
    destruct (getStatValue _ "Corner Kicks"); [|split; [discriminate|]; intros _; repeat split; discriminate].
    destruct (getStatValue _ "Corner Kicks"); [|split; [discriminate|]; intros _; repeat split; discriminate].
    simpl. split; [reflexivity|discriminate].
Qed.

Lemma pressure_failure_zero_witness :
  error (calculatePressure [ENull; team_of 4 1 2]) <> None /\
  pressTotal (calculatePressure [ENull; team_of 4 1 2]) = of_Z 0.
Proof.
  destruct (proj2 (pressure_failure_zero [ENull; team_of 4 1 2]) eq_refl)
    as (H1 & _ & _ & H2 & _).
  split; assumption.
Defined.

(** ** [getFixtureStats] *)

(** X16: [getFixtureStats] succeeds exactly on a status-200 answer with a
    body and an API key set; every failure carries an error and no
    statistics, so the scorer given them reports insufficient data, as it
    does for a 200 answer without a [response] field. *)
Theorem fixture_stats_failure (apiKey : option string) (answer : http_result (list entry)) :
  let res := getFixtureStats apiKey answer in
  (fs_success res = true <->
     configured apiKey = true /\ exists r, answer = HttpResponse 200 (Some r)) /\
  (fs_success res = false ->
     fs_stats res = [] /\ fs_error res <> None /\
     calculatePressure (fs_stats res) = failure "Insufficient statistics data") /\
  (answer = HttpResponse 200 (Some None) ->
     calculatePressure (fs_stats res) = failure "Insufficient statistics data").
Proof.
  intro res. subst res. unfold getFixtureStats.
  destruct (configured apiKey) eqn:Hk; simpl.
  - destruct answer as [msg|status resp]; simpl.
    + split; [split; [discriminate|intros (_ & ? & E); discriminate E]|].
      split; [intros _; repeat split; discriminate|intro E; discriminate E].
    + destruct (status =? 200) eqn:Hs; simpl.
      * apply Z.eqb_eq in Hs. subst status.
        destruct resp as [r|]; simpl.
        -- split; [split; [intros _; split; [reflexivity|exists r; reflexivity]|reflexivity]|].
           split; [discriminate|]. intro E. injection E as ->. reflexivity.
        -- split; [split; [discriminate|intros (_ & ? & E); discriminate E]|].
           split; [intros _; repeat split; discriminate|intro E; discriminate E].
      * split; [split; [discriminate|intros (_ & r & E); injection E as E _;
                          rewrite E in Hs; discriminate Hs]|].
        split; [intros _; repeat split; discriminate|intro E; injection E as E _;
                                                        rewrite E in Hs; discriminate Hs].
  - split; [split; [discriminate|intros (E & _); discriminate E]|].
    split; [intros _; repeat split; discriminate|reflexivity].
Qed.

Lemma fixture_stats_failure_witness :
  let res := getFixtureStats (Some "k3y"%string) (HttpResponse 200 None) in
  fs_success res = false /\
  calculatePressure (fs_stats res) = failure "Insufficient statistics data".
Proof.
  intro res. split; [reflexivity|].
  apply (proj2 (proj1 (proj2 (fixture_stats_failure (Some "k3y"%string) (HttpResponse 200 None)))
    eq_refl)).
Defined.

(** ** The workflow's midnight check *)

(** X17: [hours === 0 && minutes === 0] holds exactly in the first minute
    of a UTC day: when the time value modulo 86 400 000 ms is below
    60 000 ms. *)
Theorem midnight_first_minute (t : Z) : isMidnight t = (t mod 86400000 <? 60000).
Proof. apply isMidnight_mod. Qed.

(** X18: two times at which the daily analysis is requested are less than
    a minute apart or more than 23 h 59 min apart: it is requested on at
    most one minute of each UTC day. *)
Theorem midnight_spacing (t1 t2 : Z) :
  isMidnight t1 = true -> isMidnight t2 = true -> t1 <= t2 ->
  t2 - t1 < 60000 \/ 86340000 < t2 - t1.
Proof.
  rewrite !isMidnight_mod, !Z.ltb_lt. intros H1 H2 Hle.
  pose proof (Z.div_mod t1 86400000 ltac:(lia)). pose proof (Z.mod_pos_bound t1 86400000 ltac:(lia)).
  pose proof (Z.div_mod t2 86400000 ltac:(lia)). pose proof (Z.mod_pos_bound t2 86400000 ltac:(lia)).
  set (q1 := t1 / 86400000) in *. set (q2 := t2 / 86400000) in *.
  set (r1 := t1 mod 86400000) in *. set (r2 := t2 mod 86400000) in *.
  clearbody q1 q2 r1 r2.
  destruct (Z.lt_total q1 q2) as [Hq|[Hq|Hq]]; [right|left|exfalso]; nia.
Qed.

Lemma midnight_spacing_witness :
  isMidnight 1700006400000 = true /\ isMidnight 1700092830000 = true /\
  (1700092830000 - 1700006400000 < 60000 \/ 86340000 < 1700092830000 - 1700006400000).
Proof.
  split; [vm_compute; reflexivity|]. split; [vm_compute; reflexivity|].
  apply midnight_spacing; [vm_compute; reflexivity|vm_compute; reflexivity|lia].
Defined.

End Extras.
